(** * Video-annotation UI: upload polling, function-call router,
      request orchestration and caption synchronisation.

    Shallow embedding of [src/api.ts] (uploadFile), the application
    component of [src/unnamed/part_000] (setTimecodes, onModeSelect,
    uploadVideo and the handlers wired in its markup) and
    [src/VideoPlayer.tsx] (formatTime, timecodeListReversed, updateTime).

    Conventions of the embedding.
    - A React state cell is a field of a record; a setter call is a record
      update.  Every setter in the sources is called with an absolute value,
      so a continuation that runs after an [await] is a function of the
      state current at that moment.
    - An [async] handler is split at its [await]: the part that runs
      synchronously, and the continuation run when the promise settles.
    - Calls to collaborators and to the console are recorded in a list of
      [Effect]s, in program order.
    - JavaScript numbers are exact rationals extended with NaN and the two
      infinities; rounding of doubles is not modelled, and an integral number
      is printed by its decimal digits (the exponent notation that
      Number::toString uses from 1e21 on is outside the model). *)

From Stdlib Require Import ZArith QArith Qround String Ascii List Bool Lia Lqa.
From Stdlib Require Import DecimalString DecimalPos.
From stdpp Require Import gmap strings list.

Local Open Scope Z_scope.

(** ** JavaScript values used by the sources *)

Module Js.

(** A number: NaN, an infinity (with its sign) or a finite value. *)
Inductive num : Type :=
| NaN
| Infinity (negative : bool)
| Fin (q : Q).

(** The result of [Math.floor]: integral when finite. *)
Inductive integral : Type :=
| INaN
| IInfinity (negative : bool)
| IInt (z : Z).

Definition Math_floor (n : num) : integral :=
  match n with
  | NaN => INaN
  | Infinity s => IInfinity s
  | Fin q => IInt (Qfloor q)
  end.

(** Rounding towards zero, as the quotient of [%] does. *)
Definition Qtrunc (q : Q) : Z :=
  if Qle_bool 0 q then Qfloor q else Qceiling q.

Definition Qsign_neg (q : Q) : bool := negb (Qle_bool 0 q).

(** [a / b].  The sign of a zero is not tracked: a zero divisor counts as
    positive zero. *)
Definition div (a b : num) : num :=
  match a, b with
  | NaN, _ | _, NaN => NaN
  | Infinity _, Infinity _ => NaN
  | Infinity s, Fin d => Infinity (xorb s (Qsign_neg d))
  | Fin _, Infinity _ => Fin 0
  | Fin x, Fin d =>
      if Qeq_bool d 0
      then if Qeq_bool x 0 then NaN else Infinity (Qsign_neg x)
      else Fin (x / d)
  end.

(** [a % b]: the remainder has the sign of the dividend. *)
Definition rem (a b : num) : num :=
  match a, b with
  | NaN, _ | _, NaN => NaN
  | Infinity _, _ => NaN
  | Fin x, Infinity _ => Fin x
  | Fin x, Fin d =>
      if Qeq_bool d 0 then NaN
      else Fin (x - d * inject_Z (Qtrunc (x / d)))
  end.

Definition mul (a b : num) : num :=
  match a, b with
  | NaN, _ | _, NaN => NaN
  | Infinity s, Infinity s' => Infinity (xorb s s')
  | Infinity s, Fin q | Fin q, Infinity s =>
      if Qeq_bool q 0 then NaN else Infinity (xorb s (Qsign_neg q))
  | Fin x, Fin y => Fin (x * y)
  end.

(** [a <= b]: false as soon as one side is NaN. *)
Definition le (a b : num) : bool :=
  match a, b with
  | NaN, _ | _, NaN => false
  | Infinity true, _ => true
  | _, Infinity false => true
  | Infinity false, _ => false
  | _, Infinity true => false
  | Fin x, Fin y => Qle_bool x y
  end.

(** Truthiness of a number: NaN and zero are falsy. *)
Definition truthy_num (a : num) : bool :=
  match a with
  | NaN => false
  | Infinity _ => true
  | Fin q => negb (Qeq_bool q 0)
  end.

(** [a || b] on numbers. *)
Definition or_num (a b : num) : num := if truthy_num a then a else b.

(** Truthiness of a string: the empty string is falsy. *)
Definition truthy_str (s : string) : bool :=
  match s with EmptyString => false | String _ _ => true end.

(** Truthiness of an optional string ([undefined] is falsy). *)
Definition truthy_ostr (o : option string) : bool :=
  match o with Some s => truthy_str s | None => false end.

Definition decimal (z : Z) : string := NilZero.string_of_int (Z.to_int z).

(** [Number.prototype.toString] on the result of [Math.floor]. *)
Definition toString (n : integral) : string :=
  match n with
  | INaN => "NaN"
  | IInfinity false => "Infinity"
  | IInfinity true => "-Infinity"
  | IInt z => decimal z
  end.

Fixpoint repeat_char (c : ascii) (n : nat) : string :=
  match n with O => EmptyString | S k => String c (repeat_char c k) end.

(** [s.padStart(n, c)] for a one-character pad string. *)
Definition padStart (n : nat) (c : ascii) (s : string) : string :=
  repeat_char c (n - String.length s) +:+ s.

(** [s.startsWith(p)]. *)
Definition startsWith (s p : string) : bool := String.prefix p s.

End Js.

Import Js.

(** ** VideoPlayer.tsx: formatTime *)

(** [`${Math.floor(t / 60)}:${Math.floor(t % 60).toString().padStart(2, '0')}`] *)
Definition formatTime (t : num) : string :=
  toString (Math_floor (div t (Fin 60)))
  +:+ ":" +:+ padStart 2 "0" (toString (Math_floor (rem t (Fin 60)))).


(** ** Data model *)

(** One entry of the result list: [{time, text?, objects?, value?}]. *)
Record Annotation : Type := mkAnnotation {
  time : string;
  text : option string;
  objects : option (list string);
  value : option num
}.

(** The handle [{uri, mimeType}] returned by [uploadFile]. *)
Record UploadedFileInfo : Type := mkInfo {
  uri : string;
  mimeType : string
}.

(** A browser [File]: only its name and MIME type are read. *)
Record File : Type := mkFile {
  file_name : string;
  file_type : string
}.

(** The processing state the file service reports ([getFile.state]). *)
Inductive FileState : Type :=
| STATE_UNSPECIFIED
| PROCESSING
| ACTIVE
| FAILED.

Definition stateName (s : FileState) : string :=
  match s with
  | STATE_UNSPECIFIED => "STATE_UNSPECIFIED"
  | PROCESSING => "PROCESSING"
  | ACTIVE => "ACTIVE"
  | FAILED => "FAILED"
  end.

Inductive Error : Type :=
| TransportError (msg : string)        (* thrown by a collaborator *)
| TypeError (msg : string)             (* thrown by the language *)
| FileProcessingFailed (status : FileState)   (* api.ts, first throw *)
| FileNotActive (status : FileState).         (* api.ts, second throw *)

(** The message of a thrown [Error], as the template literals build it. *)
Definition message (e : Error) : string :=
  match e with
  | TransportError m | TypeError m => m
  | FileProcessingFailed s =>
      "File processing failed. Status: " +:+ stateName s
  | FileNotActive s =>
      "File processing did not complete successfully. Status: "
      +:+ stateName s
  end.

(** How a promise settles. *)
Inductive Settled (A : Type) : Type :=
| Fulfilled (a : A)
| Rejected (e : Error).
Arguments Fulfilled {A} a.
Arguments Rejected {A} e.

(** Calls to collaborators, to the browser and to the console. *)
Inductive Effect : Type :=
| GenerateContent (prompt : string) (declarations : list string)
                  (fileInfo : UploadedFileInfo)
| UploadFile (f : File)
| CreateObjectURL (f : File)
| RevokeObjectURL (url : string)
| PreventDefault
| ScrollToTop
| ConsoleLog (args : list string)
| ConsoleWarn (args : list string)
| ConsoleError (args : list string).

Definition isGenerateContent (e : Effect) : bool :=
  match e with GenerateContent _ _ _ => true | _ => false end.

Definition isUploadFile (e : Effect) : bool :=
  match e with UploadFile _ => true | _ => false end.

(** ** The application component (src/unnamed/part_000) *)

(** The state cells of [App] that its handlers read or write. *)
Record App : Type := mkApp {
  vidUrl : option string;
  file : option UploadedFileInfo;
  timecodeList : option (list Annotation);
  requestedTimecode : option num;
  selectedMode : string;
  activeMode : option string;
  isLoading : bool;
  showSidebar : bool;
  isLoadingVideo : bool;
  videoError : bool;
  customPrompt : string;
  chartMode : string;
  chartPrompt : string;
  chartLabel : string
}.

Definition setVidUrl (v : option string) (a : App) : App :=
  mkApp v (file a) (timecodeList a) (requestedTimecode a) (selectedMode a)
        (activeMode a) (isLoading a) (showSidebar a) (isLoadingVideo a)
        (videoError a) (customPrompt a) (chartMode a) (chartPrompt a)
        (chartLabel a).

Definition setFile (v : option UploadedFileInfo) (a : App) : App :=
  mkApp (vidUrl a) v (timecodeList a) (requestedTimecode a) (selectedMode a)
        (activeMode a) (isLoading a) (showSidebar a) (isLoadingVideo a)
        (videoError a) (customPrompt a) (chartMode a) (chartPrompt a)
        (chartLabel a).

Definition setTimecodeList (v : option (list Annotation)) (a : App) : App :=
  mkApp (vidUrl a) (file a) v (requestedTimecode a) (selectedMode a)
        (activeMode a) (isLoading a) (showSidebar a) (isLoadingVideo a)
        (videoError a) (customPrompt a) (chartMode a) (chartPrompt a)
        (chartLabel a).

Definition setRequestedTimecode (v : option num) (a : App) : App :=
  mkApp (vidUrl a) (file a) (timecodeList a) v (selectedMode a)
        (activeMode a) (isLoading a) (showSidebar a) (isLoadingVideo a)
        (videoError a) (customPrompt a) (chartMode a) (chartPrompt a)
        (chartLabel a).

Definition setSelectedMode (v : string) (a : App) : App :=
  mkApp (vidUrl a) (file a) (timecodeList a) (requestedTimecode a) v
        (activeMode a) (isLoading a) (showSidebar a) (isLoadingVideo a)
        (videoError a) (customPrompt a) (chartMode a) (chartPrompt a)
        (chartLabel a).

Definition setActiveMode (v : option string) (a : App) : App :=
  mkApp (vidUrl a) (file a) (timecodeList a) (requestedTimecode a)
        (selectedMode a) v (isLoading a) (showSidebar a) (isLoadingVideo a)
        (videoError a) (customPrompt a) (chartMode a) (chartPrompt a)
        (chartLabel a).

Definition setIsLoading (v : bool) (a : App) : App :=
  mkApp (vidUrl a) (file a) (timecodeList a) (requestedTimecode a)
        (selectedMode a) (activeMode a) v (showSidebar a) (isLoadingVideo a)
        (videoError a) (customPrompt a) (chartMode a) (chartPrompt a)
        (chartLabel a).

Definition setShowSidebar (v : bool) (a : App) : App :=
  mkApp (vidUrl a) (file a) (timecodeList a) (requestedTimecode a)
        (selectedMode a) (activeMode a) (isLoading a) v (isLoadingVideo a)
        (videoError a) (customPrompt a) (chartMode a) (chartPrompt a)
        (chartLabel a).

Definition setIsLoadingVideo (v : bool) (a : App) : App :=
  mkApp (vidUrl a) (file a) (timecodeList a) (requestedTimecode a)
        (selectedMode a) (activeMode a) (isLoading a) (showSidebar a) v
        (videoError a) (customPrompt a) (chartMode a) (chartPrompt a)
        (chartLabel a).

Definition setVideoError (v : bool) (a : App) : App :=
  mkApp (vidUrl a) (file a) (timecodeList a) (requestedTimecode a)
        (selectedMode a) (activeMode a) (isLoading a) (showSidebar a)
        (isLoadingVideo a) v (customPrompt a) (chartMode a) (chartPrompt a)
        (chartLabel a).

Definition setCustomPrompt (v : string) (a : App) : App :=
  mkApp (vidUrl a) (file a) (timecodeList a) (requestedTimecode a)
        (selectedMode a) (activeMode a) (isLoading a) (showSidebar a)
        (isLoadingVideo a) (videoError a) v (chartMode a) (chartPrompt a)
        (chartLabel a).

Definition setChartMode (v : string) (a : App) : App :=
  mkApp (vidUrl a) (file a) (timecodeList a) (requestedTimecode a)
        (selectedMode a) (activeMode a) (isLoading a) (showSidebar a)
        (isLoadingVideo a) (videoError a) (customPrompt a) v (chartPrompt a)
        (chartLabel a).

Definition setChartPrompt (v : string) (a : App) : App :=
  mkApp (vidUrl a) (file a) (timecodeList a) (requestedTimecode a)
        (selectedMode a) (activeMode a) (isLoading a) (showSidebar a)
        (isLoadingVideo a) (videoError a) (customPrompt a) (chartMode a) v
        (chartLabel a).

Definition setChartLabel (v : string) (a : App) : App :=
  mkApp (vidUrl a) (file a) (timecodeList a) (requestedTimecode a)
        (selectedMode a) (activeMode a) (isLoading a) (showSidebar a)
        (isLoadingVideo a) (videoError a) (customPrompt a) (chartMode a)
        (chartPrompt a) v.

(** *** setTimecodes and the function map *)

(** [s.replace(/\\'/g, "'")]: every backslash followed by a single quote,
    scanning from the left, is replaced by the quote alone. *)
Fixpoint unescapeQuotes (s : string) : string :=
  match s with
  | EmptyString => EmptyString
  | String c rest =>
      match rest with
      | String c' rest' =>
          if Ascii.eqb c "\" && Ascii.eqb c' "'"
          then String "'" (unescapeQuotes rest')
          else String c (unescapeQuotes rest)
      | EmptyString => String c EmptyString
      end
  end.

(** [{...t, text: t.text ? t.text.replace(/\\'/g, "'") : ''}] *)
Definition cleanText (t : Annotation) : Annotation :=
  mkAnnotation (time t)
               (Some (if truthy_ostr (text t)
                      then unescapeQuotes (default EmptyString (text t))
                      else EmptyString))
               (objects t) (value t).

(** The argument object [{timecodes}] of a function call. *)
Record Payload : Type := mkPayload { timecodes : list Annotation }.

Definition setTimecodes (p : Payload) (a : App) : App :=
  setTimecodeList (Some (map cleanText (timecodes p))) a.

(** [({timecodes}) => setTimecodeList(timecodes)] *)
Definition setTimecodesNumeric (p : Payload) (a : App) : App :=
  setTimecodeList (Some (timecodes p)) a.

(** The own properties of the object literal [fnMap]. *)
Definition fnMap : gmap string (Payload -> App -> App) :=
  <["set_timecodes" := setTimecodes]>
  (<["set_timecodes_with_objects" := setTimecodes]>
  (<["set_timecodes_with_numeric_values" := setTimecodesNumeric]> ∅)).

(** What the properties [fnMap] inherits from [Object.prototype] do when
    called as [fnMap[name](args)]: all of them are truthy; [true] marks the
    ones whose call throws a TypeError ([__proto__] is not callable, the two
    [__define*__] methods reject a missing accessor function). *)
Definition Object_prototype : gmap string bool :=
  list_to_map
    [("constructor", false); ("hasOwnProperty", false);
     ("isPrototypeOf", false); ("propertyIsEnumerable", false);
     ("toLocaleString", false); ("toString", false); ("valueOf", false);
     ("__lookupGetter__", false); ("__lookupSetter__", false);
     ("__defineGetter__", true); ("__defineSetter__", true);
     ("__proto__", true)].

(** The value of [fnMap[name]]. *)
Inductive Property : Type :=
| Own (handler : Payload -> App -> App)
| Inherited (callThrows : bool).

Definition fnMap_get (name : string) : option Property :=
  match fnMap !! name with
  | Some h => Some (Own h)
  | None => Inherited <$> (Object_prototype !! name)
  end.

(** *** onModeSelect *)

(** One invocation [{name, args}] of the model response. *)
Record FunctionCall : Type := mkCall {
  name : string;
  args : Payload
}.

(** The response of the generation request: [{functionCalls?, text?}]. *)
Record Response : Type := mkResponse {
  functionCalls : option (list FunctionCall);
  responseText : option string
}.

(** The names under which the three handlers are declared to the model
    (the declarations themselves are built by [./functions]). *)
Definition declaredFunctions : list string :=
  ["set_timecodes"; "set_timecodes_with_objects";
   "set_timecodes_with_numeric_values"].

(** The static table imported from [./modes], read through three
    projections: [modes[m].prompt] as a string, [modes[m].prompt(x)] and
    [modes[m].subModes[k]]; and the two first keys the markup resets to. *)
Record ModeTable : Type := mkModes {
  promptText : string -> string;
  promptFn : string -> string -> string;
  subModes : string -> string -> string;
  firstMode : string;
  firstChartMode : string
}.

Definition isWhiteSpace (c : ascii) : bool :=
  match nat_of_ascii c with
  | 9%nat | 10%nat | 11%nat | 12%nat | 13%nat | 32%nat => true
  | _ => false
  end.

Fixpoint trimStart (s : string) : string :=
  match s with
  | EmptyString => EmptyString
  | String c rest => if isWhiteSpace c then trimStart rest else s
  end.

Fixpoint trimEnd (s : string) : string :=
  match s with
  | EmptyString => EmptyString
  | String c rest =>
      match trimEnd rest with
      | EmptyString => if isWhiteSpace c then EmptyString
                       else String c EmptyString
      | r => String c r
      end
  end.

(** [s.trim()], on the white space of the ASCII range. *)
Definition trim (s : string) : string := trimEnd (trimStart s).

Section Orchestrator.

Variable modes : ModeTable.

Definition isCustomMode (a : App) : bool := String.eqb (selectedMode a) "Custom".
Definition isChartMode (a : App) : bool := String.eqb (selectedMode a) "Chart".
Definition isCustomChartMode (a : App) : bool :=
  isChartMode a && String.eqb (chartMode a) "Custom".
Definition hasSubMode (a : App) : bool := isCustomMode a || isChartMode a.

(** The prompt built before the request is issued. *)
Definition currentPrompt (mode : string) (a : App) : string :=
  if isCustomMode a then promptFn modes mode (customPrompt a)
  else if isChartMode a
       then promptFn modes mode
              (if isCustomChartMode a then chartPrompt a
               else subModes modes mode (chartMode a))
       else promptText modes mode.

(** [onModeSelect] up to its [await]: the new state and what it calls. *)
Definition onModeSelect (mode : string) (a : App) : App * list Effect :=
  match file a with
  | None => (setVideoError true a, [])
  | Some f =>
      let a1 := setActiveMode (Some mode) a in
      let a2 := setIsLoading true a1 in
      let a3 := setChartLabel
                  (if isChartMode a && negb (isCustomChartMode a)
                   then subModes modes mode (chartMode a)
                   else chartPrompt a) a2 in
      (a3, [GenerateContent (currentPrompt mode a) declaredFunctions f])
  end.

(** [resp.functionCalls?.[0]] *)
Definition firstCall (resp : Response) : option FunctionCall :=
  match functionCalls resp with
  | Some (c :: _) => Some c
  | _ => None
  end.

(** The body of the [try] after the response has arrived.  The third
    component is the exception the body ends with, if any. *)
Definition dispatch (resp : Response) (a : App)
  : App * list Effect * option Error :=
  match firstCall resp with
  | Some call =>
      match fnMap_get (name call) with
      | Some (Own handler) => (handler (args call) a, [], None)
      | Some (Inherited false) => (a, [], None)
      | Some (Inherited true) =>
          (a, [], Some (TypeError "fnMap[call.name] is not a function"))
      | None =>
          (a, [ConsoleError ["Function " +:+ name call
                             +:+ " not found in function map."]], None)
      end
  | None =>
      if truthy_ostr (responseText resp)
      then (a, [ConsoleLog ["Model response text:";
                            default EmptyString (responseText resp)]], None)
      else (a, [], None)
  end.

(** [onModeSelect] from the moment the request settles: [try] body,
    [catch] and [finally]. *)
Definition onModeSelect_settled (scrollRefCurrent : bool)
    (r : Settled Response) (a : App) : App * list Effect :=
  let '(a1, eff, thrown) :=
    match r with
    | Fulfilled resp => dispatch resp a
    | Rejected e => (a, [], Some e)
    end in
  let caught :=
    match thrown with
    | Some e => [ConsoleError ["Error generating content:"; message e]]
    | None => []
    end in
  (setIsLoading false a1,
   eff ++ caught ++ (if scrollRefCurrent then [ScrollToTop] else [])).

(** *** The controls that call onModeSelect *)

(** The mode selector is rendered under [vidUrl && !isLoadingVideo]. *)
Definition selectorRendered (a : App) : bool :=
  truthy_ostr (vidUrl a) && negb (isLoadingVideo a).

(** The [disabled] attribute of the Generate button. *)
Definition generateDisabled (a : App) : bool :=
  if hasSubMode a
  then isLoading a || negb (bool_decide (is_Some (file a)))
       || (isCustomMode a && negb (truthy_str (trim (customPrompt a))))
       || (isChartMode a && isCustomChartMode a
           && negb (truthy_str (trim (chartPrompt a))))
  else isLoading a || negb (bool_decide (is_Some (file a))).

Inductive UiEvent : Type :=
| ClickMode (mode : string)
| ClickChartMode (mode : string)
| ChangeCustomPrompt (v : string)
| ChangeChartPrompt (v : string)
| FocusChartPrompt
| KeyDownPrompt (key : string) (shiftKey : bool)
| ClickGenerate
| ClickBack
| ClickCollapse.

(** The event handlers of the markup.  An event on a control that is not
    rendered, or on a disabled button, runs no handler. *)
Definition onUiEvent (e : UiEvent) (a : App) : App * list Effect :=
  if negb (selectorRendered a) then (a, [])
  else
    match e with
    | ClickMode mode =>
        if hasSubMode a then (a, []) else (setSelectedMode mode a, [])
    | ClickChartMode mode =>
        if isChartMode a then (setChartMode mode a, []) else (a, [])
    | ChangeCustomPrompt v =>
        if isCustomMode a then (setCustomPrompt v a, []) else (a, [])
    | ChangeChartPrompt v =>
        if negb (isCustomMode a) && isChartMode a
        then (setChartPrompt v a, []) else (a, [])
    | FocusChartPrompt =>
        if negb (isCustomMode a) && isChartMode a
        then (setChartMode "Custom" a, []) else (a, [])
    | KeyDownPrompt key shiftKey =>
        if hasSubMode a && String.eqb key "Enter" && negb shiftKey
        then let '(a1, eff) := onModeSelect (selectedMode a) a in
             (a1, PreventDefault :: eff)
        else (a, [])
    | ClickGenerate =>
        if generateDisabled a then (a, [])
        else onModeSelect (selectedMode a) a
    | ClickBack =>
        if hasSubMode a
        then (setChartMode (firstChartMode modes)
                (setChartPrompt EmptyString
                   (setCustomPrompt EmptyString
                      (setSelectedMode (firstMode modes) a))), [])
        else (a, [])
    | ClickCollapse => (setShowSidebar (negb (showSidebar a)) a, [])
    end.

(** *** uploadVideo *)

(** [uploadVideo] up to its [await].  [droppedFile] is
    [e.dataTransfer.files?.[0]]; [objectUrl] is what
    [URL.createObjectURL] answers.  The third component is the object URL
    captured by the continuation when [uploadFile] has been called. *)
Definition uploadVideo (droppedFile : option File) (objectUrl : string)
    (a : App) : App * list Effect * option string :=
  match droppedFile with
  | Some f =>
      if negb (startsWith (file_type f) "video/")
      then
        let a1 := setVideoError true a in
        let a2 := setIsLoadingVideo false a1 in
        let a3 := setVidUrl None a2 in
        let a4 := setFile None a3 in
        let a5 := setTimecodeList None a4 in
        let a6 := setActiveMode None a5 in
        (a6, [PreventDefault;
              ConsoleWarn ["Dropped file is not a video type."]], None)
      else
        let a1 := setIsLoadingVideo true a in
        let a2 := setVideoError false a1 in
        let a3 := setVidUrl None a2 in
        let a4 := setFile None a3 in
        let a5 := setTimecodeList None a4 in
        let a6 := setActiveMode None a5 in
        let a7 := setRequestedTimecode None a6 in
        let a8 := setVidUrl (Some objectUrl) a7 in
        (a8, [PreventDefault; CreateObjectURL f; UploadFile f],
         Some objectUrl)
  | None =>
      (setIsLoadingVideo false (setVideoError true a),
       [PreventDefault;
        ConsoleWarn ["No files were dropped or item was not a file."]],
       None)
  end.

(** [uploadVideo] from the moment [uploadFile] settles. *)
Definition uploadVideo_settled (objectUrl : string)
    (r : Settled UploadedFileInfo) (a : App) : App * list Effect :=
  match r with
  | Fulfilled uploadedFileInfo =>
      (setIsLoadingVideo false (setFile (Some uploadedFileInfo) a), [])
  | Rejected uploadError =>
      let a1 := setVideoError true a in
      let a2 := setIsLoadingVideo false a1 in
      let a3 := setVidUrl None a2 in
      let a4 := setFile None a3 in
      (a4, [ConsoleError ["Error during video processing or upload:";
                          message uploadError];
            RevokeObjectURL objectUrl])
  end.

End Orchestrator.

(** ** The event loop

    One thread of control: user events and promise settlements are
    processed one at a time.  A suspended [uploadVideo] is remembered by the
    object URL it captured, a suspended [onModeSelect] by the number of its
    request.  [drops] numbers the drop events: the upload started by drop
    number [n] belongs to session [n], and the session of the latest drop is
    the current one. *)

Record PendingUpload : Type := mkPending {
  session : nat;
  capturedUrl : string
}.

Record World : Type := mkWorld {
  app : App;
  drops : nat;
  uploads : list PendingUpload;
  issued : nat;
  requests : list nat;
  effects : list Effect
}.

Inductive Event : Type :=
| Ui (e : UiEvent)
| FileDrop (droppedFile : option File) (objectUrl : string)
| UploadSettles (s : nat) (r : Settled UploadedFileInfo)
| GenerationSettles (request : nat) (r : Settled Response).

Definition initialApp (modes : ModeTable) : App :=
  mkApp None None None None (firstMode modes) None false true false false
        EmptyString (firstChartMode modes) EmptyString EmptyString.

Definition initialWorld (modes : ModeTable) : World :=
  mkWorld (initialApp modes) 0 [] 0 [] [].

Definition findUpload (s : nat) (w : World) : option PendingUpload :=
  List.find (fun p => Nat.eqb (session p) s) (uploads w).

Definition dropUpload (s : nat) (l : list PendingUpload) : list PendingUpload :=
  List.filter (fun p => negb (Nat.eqb (session p) s)) l.

Definition isPendingRequest (n : nat) (w : World) : bool :=
  existsb (Nat.eqb n) (requests w).

Definition exec (modes : ModeTable) (ev : Event) (w : World) : World :=
  match ev with
  | Ui e =>
      let '(a, eff) := onUiEvent modes e (app w) in
      if existsb isGenerateContent eff
      then mkWorld a (drops w) (uploads w) (S (issued w))
                   (requests w ++ [issued w]) (effects w ++ eff)
      else mkWorld a (drops w) (uploads w) (issued w) (requests w)
                   (effects w ++ eff)
  | FileDrop droppedFile objectUrl =>
      let '(a, eff, captured) := uploadVideo droppedFile objectUrl (app w) in
      mkWorld a (S (drops w))
              (match captured with
               | Some u => uploads w ++ [mkPending (drops w) u]
               | None => uploads w
               end)
              (issued w) (requests w) (effects w ++ eff)
  | UploadSettles s r =>
      match findUpload s w with
      | Some p =>
          let '(a, eff) := uploadVideo_settled (capturedUrl p) r (app w) in
          mkWorld a (drops w) (dropUpload s (uploads w)) (issued w)
                  (requests w) (effects w ++ eff)
      | None => w
      end
  | GenerationSettles n r =>
      if isPendingRequest n w
      then let '(a, eff) := onModeSelect_settled true r (app w) in
           mkWorld a (drops w) (uploads w) (issued w)
                   (List.filter (fun k => negb (Nat.eqb k n)) (requests w))
                   (effects w ++ eff)
      else w
  end.

Definition run (modes : ModeTable) (evs : list Event) (w : World) : World :=
  fold_left (fun w ev => exec modes ev w) evs w.

(** The session of the latest drop. *)
Definition currentSession (w : World) : nat := Nat.pred (drops w).

(** An upload whose drop has been followed by another drop. *)
Definition isStale (s : nat) (w : World) : bool :=
  bool_decide (is_Some (findUpload s w)) && negb (Nat.eqb s (currentSession w)).

(** ** api.ts: uploadFile *)

(** What [client.files.get] answers. *)
Record FileMeta : Type := mkMeta {
  metaState : FileState;
  metaUri : string;
  metaMimeType : option string
}.

(** The calls [uploadFile] makes to the file service and to the timer, in
    order (its console output is left out). *)
Inductive ApiCall : Type :=
| FilesUpload (f : File)
| FilesGet (resource : string)
| SetTimeout (ms : Z).

Definition isFilesGet (c : ApiCall) : bool :=
  match c with FilesGet _ => true | _ => false end.

Definition maxRetries : nat := 12.

(** The [while] loop.  [left] is [maxRetries - retries]; [called] counts the
    status requests made so far, and [statuses k] is the answer to request
    number [k]. *)
Fixpoint pollWhileProcessing (left : nat) (resource : string)
    (statuses : nat -> Settled FileMeta) (called : nat) (getFile : FileMeta)
    : Settled FileMeta * list ApiCall :=
  match left with
  | O => (Fulfilled getFile, [])
  | S left' =>
      match metaState getFile with
      | PROCESSING =>
          match statuses called with
          | Fulfilled next =>
              let '(r, calls) :=
                pollWhileProcessing left' resource statuses (S called) next in
              (r, SetTimeout 5000 :: FilesGet resource :: calls)
          | Rejected e => (Rejected e, [SetTimeout 5000; FilesGet resource])
          end
      | _ => (Fulfilled getFile, [])
      end
  end.

(** [uploadFile(file)]: [uploaded] is how [client.files.upload] settles
    (with the resource name). *)
Definition uploadFile (f : File) (uploaded : Settled string)
    (statuses : nat -> Settled FileMeta)
    : Settled UploadedFileInfo * list ApiCall :=
  match uploaded with
  | Rejected e => (Rejected e, [FilesUpload f])
  | Fulfilled resource =>
      match statuses O with
      | Rejected e => (Rejected e, [FilesUpload f; FilesGet resource])
      | Fulfilled first =>
          let '(r, calls) :=
            pollWhileProcessing maxRetries resource statuses 1%nat first in
          let trace := FilesUpload f :: FilesGet resource :: calls in
          match r with
          | Rejected e => (Rejected e, trace)
          | Fulfilled getFile =>
              match metaState getFile with
              | FAILED => (Rejected (FileProcessingFailed FAILED), trace)
              | ACTIVE =>
                  (Fulfilled
                     (mkInfo (metaUri getFile)
                             (if truthy_ostr (metaMimeType getFile)
                              then default EmptyString (metaMimeType getFile)
                              else file_type f)),
                   trace)
              | s => (Rejected (FileNotActive s), trace)
              end
          end
      end
  end.

(** Number of status requests in a trace, and the time spent waiting. *)
Definition polls (trace : list ApiCall) : nat :=
  List.length (List.filter isFilesGet trace).

Definition waited (trace : list ApiCall) : Z :=
  fold_right (fun c acc => match c with SetTimeout ms => ms + acc | _ => acc end)
             0 trace.

(** The terminal states of the upload state machine, in the vocabulary of
    the specification, and how the settlement of [uploadFile] reads in it. *)
Inductive FailureReason : Type :=
| UploadError
| ProcessingFailed
| ProcessingTimeout.

Inductive Terminal : Type :=
| Ready (media : UploadedFileInfo)
| Failed (reason : FailureReason).

Definition terminal (r : Settled UploadedFileInfo) : Terminal :=
  match r with
  | Fulfilled media => Ready media
  | Rejected (FileProcessingFailed _) => Failed ProcessingFailed
  | Rejected (FileNotActive PROCESSING) => Failed ProcessingTimeout
  | Rejected _ => Failed UploadError
  end.

(** A status source that answers from a list and then keeps repeating
    [last]. *)
Definition answers (l : list FileState) (last : FileState) (k : nat)
  : Settled FileMeta :=
  Fulfilled (mkMeta (nth k l last) "files/x" (Some "video/mp4")).

(** ** VideoPlayer.tsx: the caption under the playback position *)

(** The fields of the video element the player reads. *)
Record Video : Type := mkVideo {
  currentTime : num;
  videoDuration : num
}.

Record Player : Type := mkPlayer {
  duration : num;
  scrubberTime : num;
  isPlaying : bool;
  isScrubbing : bool;
  currentCaption : option string
}.

Definition setScrubberTime (v : num) (p : Player) : Player :=
  mkPlayer (duration p) v (isPlaying p) (isScrubbing p) (currentCaption p).

Definition setCurrentCaption (v : option string) (p : Player) : Player :=
  mkPlayer (duration p) (scrubberTime p) (isPlaying p) (isScrubbing p) v.


(** [timecodeList?.slice().reverse()] *)
Definition timecodeListReversed (timecodeList : option (list Annotation))
  : option (list Annotation) :=
  @List.rev Annotation <$> timecodeList.

Section Synchronizer.

(** [timeToSecs] is imported from [./utils]. *)
Variable timeToSecs : string -> num.

(** The handler of [timeupdate]; [videoRef] is [videoRef.current]. *)
Definition updateTime (timecodeList : option (list Annotation))
    (videoRef : option Video) (p : Player) : Player :=
  let p1 :=
    match videoRef with
    | Some v =>
        if negb (isScrubbing p)
        then setScrubberTime
               (or_num (div (currentTime v) (videoDuration v)) (Fin 0)) p
        else p
    | None => p
    end in
  match timecodeListReversed timecodeList, videoRef with
  | Some reversed, Some v =>
      setCurrentCaption
        (List.find (fun t => le (timeToSecs (time t)) (currentTime v))
                   reversed ≫= text)
        p1
  | _, _ => p1
  end.

(** An entry qualifies when its time is at or before the position. *)
Definition qualifies (now : num) (t : Annotation) : bool :=
  le (timeToSecs (time t)) now.

End Synchronizer.

(** *** The time codec the player imports *)

Fixpoint splitColon (s : string) : list string :=
  match s with
  | EmptyString => [EmptyString]
  | String c rest =>
      if Ascii.eqb c ":" then EmptyString :: splitColon rest
      else match splitColon rest with
           | part :: parts => String c part :: parts
           | [] => [String c EmptyString]
           end
  end.

Definition digitValue (c : ascii) : option Z :=
  let n := nat_of_ascii c in
  if (48 <=? n)%nat && (n <=? 57)%nat then Some (Z.of_nat (n - 48)) else None.

Fixpoint parseDigits (acc : Z) (s : string) : option Z :=
  match s with
  | EmptyString => Some acc
  | String c rest =>
      match digitValue c with
      | Some d => parseDigits (10 * acc + d) rest
      | None => None
      end
  end.

Definition parseInteger (s : string) : option Z :=
  match s with
  | EmptyString => None
  | _ => parseDigits 0 s
  end.

(** Modelled from the spec: [timeToSecs] of [./utils] is not among the
    sources.  Section 4.1: split on the colon; two parts are minutes and
    seconds, three parts hours, minutes and seconds; each part is parsed as
    an integer and weighted by 1, 60 and 3600 from the right; a part that is
    not a number makes the result NaN. *)
Definition parseTimecode (s : string) : num :=
  match map parseInteger (splitColon s) with
  | [Some m; Some sec] => Fin (inject_Z (m * 60 + sec))
  | [Some h; Some m; Some sec] => Fin (inject_Z (h * 3600 + m * 60 + sec))
  | _ => NaN
  end.

(** ** Sample data *)

Definition sampleModes : ModeTable :=
  mkModes (fun mode => "Prompt for " +:+ mode)
          (fun mode input => "Prompt for " +:+ mode +:+ ": " +:+ input)
          (fun mode sub => sub)
          "A/V captions" "Excitement".

(** A session in which a video has been uploaded and nothing generated. *)
Definition sampleApp : App :=
  mkApp (Some "blob:clip") (Some (mkInfo "files/x" "video/mp4")) None None
        "A/V captions" None false true false false
        EmptyString "Excitement" EmptyString EmptyString.

(** The [SS] field of a display timestamp: exactly two decimal digits. *)
Definition digitChar (d : Z) : ascii := ascii_of_nat (48 + Z.to_nat d).

Definition twoDigits (s : Z) : string :=
  String (digitChar (s / 10)) (String (digitChar (s mod 10)) EmptyString).

(** *** Auxiliary notions of the statements *)

Definition answersProcessing (statuses : nat -> Settled FileMeta) (k : nat)
  : bool :=
  match statuses k with
  | Fulfilled m =>
      match metaState m with PROCESSING => true | _ => false end
  | Rejected _ => false
  end.

(** What one turn of the loop calls, [d] times over. *)
Fixpoint retryCalls (resource : string) (d : nat) : list ApiCall :=
  match d with
  | O => []
  | S d' => SetTimeout 5000 :: FilesGet resource :: retryCalls resource d'
  end.

(** How [uploadFile] settles once the status request has produced [meta]
    and the loop is over. *)
Definition settleWith (f : File) (meta : FileMeta) : Settled UploadedFileInfo :=
  match metaState meta with
  | FAILED => Rejected (FileProcessingFailed FAILED)
  | ACTIVE =>
      Fulfilled (mkInfo (metaUri meta)
                        (if truthy_ostr (metaMimeType meta)
                         then default EmptyString (metaMimeType meta)
                         else file_type f))
  | s => Rejected (FileNotActive s)
  end.

(** What [cleanText] stores for an entry, field by field. *)
Definition storedFor (t : Annotation) : Annotation :=
  mkAnnotation (time t)
               (Some (unescapeQuotes (default EmptyString (text t))))
               (objects t) (value t).

(** Two drops in a row, the second upload done, the first still pending. *)
Definition twoDrops : World :=
  run sampleModes
      [FileDrop (Some (mkFile "first.mp4" "video/mp4")) "blob:first";
       FileDrop (Some (mkFile "second.mp4" "video/mp4")) "blob:second";
       UploadSettles 1 (Fulfilled (mkInfo "files/second" "video/mp4"))]
      (initialWorld sampleModes).

(** ** VideoPlayer.tsx: the other handlers of the player *)

(** [a < b] and [a > b]: false as soon as one side is NaN. *)
Definition lt (a b : num) : bool :=
  match a, b with
  | NaN, _ | _, NaN => false
  | _, _ => negb (le b a)
  end.

Definition gt (a b : num) : bool := lt b a.

Definition setDuration (v : num) (p : Player) : Player :=
  mkPlayer v (scrubberTime p) (isPlaying p) (isScrubbing p) (currentCaption p).

Definition setIsPlaying (v : bool) (p : Player) : Player :=
  mkPlayer (duration p) (scrubberTime p) v (isScrubbing p) (currentCaption p).

Definition setIsScrubbing (v : bool) (p : Player) : Player :=
  mkPlayer (duration p) (scrubberTime p) (isPlaying p) v (currentCaption p).

(** [scrubberTime * 100] *)
Definition currentPercent (p : Player) : num := mul (scrubberTime p) (Fin 100).

(** The methods of the video element the player calls. *)
Inductive VideoCall : Type :=
| VideoPlay
| VideoPause.

Definition togglePlay (videoRef : option Video) (p : Player) : list VideoCall :=
  match videoRef with
  | Some _ => if isPlaying p then [VideoPause] else [VideoPlay]
  | None => []
  end.

Definition updateDuration (videoRef : option Video) (p : Player) : Player :=
  match videoRef with
  | Some v => setDuration (videoDuration v) p
  | None => p
  end.

Definition onPlay (p : Player) : Player := setIsPlaying true p.
Definition onPause (p : Player) : Player := setIsPlaying false p.


(** [Object.is] on numbers (the sign of a zero is not tracked) and on a
    number or [null]: how the dependencies of an effect are compared. *)
Definition sameNumber (x y : num) : bool :=
  match x, y with
  | NaN, NaN => true
  | Infinity s, Infinity s' => Bool.eqb s s'
  | Fin q, Fin q' => Qeq_bool q q'
  | _, _ => false
  end.

Definition sameValue (x y : option num) : bool :=
  match x, y with
  | None, None => true
  | Some n, Some n' => sameNumber n n'
  | _, _ => false
  end.

(** What an effect that assigns [currentTime] ends with: the video element
    as it is afterwards, or the TypeError of the setter, which accepts
    finite numbers only. *)
Inductive Seek : Type :=
| SeekDone (videoRef : option Video)
| SeekThrows.

(** The effect with the dependencies [videoRef, requestedTimecode].  It
    runs after the first render ([previous] is [None]) and after a render in
    which [requestedTimecode] differs from its value at the render before
    ([previous] is that value); the ref object itself never changes. *)
Definition onRequestedTimecode (previous : option (option num))
    (requested : option num) (videoRef : option Video) : Seek :=
  let runs :=
    match previous with
    | None => true
    | Some before => negb (sameValue before requested)
    end in
  if runs
  then match videoRef, requested with
       | Some v, Some (Fin secs) =>
           SeekDone (Some (mkVideo (Fin secs) (videoDuration v)))
       | Some _, Some _ => SeekThrows
       | _, _ => SeekDone videoRef
       end
  else SeekDone videoRef.

(** The [keypress] listener of the document; [tagName] is the tag of the
    event target. *)
Definition onKeyPress (tagName key : string) (videoRef : option Video)
    (p : Player) : list VideoCall :=
  if negb (String.eqb tagName "INPUT") && negb (String.eqb tagName "TEXTAREA")
     && String.eqb key " "
  then togglePlay videoRef p
  else [].

(** [onChange] of the range input; [v] is [e.target.valueAsNumber]. *)
Definition onScrubberChange (v : num) (videoRef : option Video) (p : Player)
  : Player * option Video :=
  (setScrubberTime v p,
   match videoRef with
   | Some video => Some (mkVideo (mul v (duration p)) (videoDuration video))
   | None => None
   end).

Definition onPointerDown (p : Player) : Player := setIsScrubbing true p.
Definition onPointerUp (p : Player) : Player := setIsScrubbing false p.

(** What stands in the place of the player: the video with its controls, or
    one of the three messages of the empty panel. *)
Inductive Panel : Type :=
| VideoPanel (url : string)
| ProcessingMessage
| ErrorMessage
| DropMessage.

(** [url && !isLoadingVideo ? ... : isLoadingVideo ? ... : videoError ? ... : ...] *)
Definition panel (url : option string) (loadingVideo error : bool) : Panel :=
  if truthy_ostr url && negb loadingVideo
  then VideoPanel (default EmptyString url)
  else if loadingVideo then ProcessingMessage
       else if error then ErrorMessage else DropMessage.

(** The panel under the props [App] passes to the player. *)
Definition appPanel (a : App) : Panel :=
  panel (vidUrl a) (isLoadingVideo a) (videoError a).

(** The label of a marker, [value || text]. *)
Inductive MarkerLabel : Type :=
| ValueLabel (v : num)
| TextLabel (t : option string).

Record Marker : Type := mkMarker {
  markerLeft : num;
  markerSecs : num;
  markerTime : string;
  markerLabel : MarkerLabel
}.

Section Markers.

Variable timeToSecs : string -> num.

(** [duration > 0 ? (secs / duration) * 100 : 0] *)
Definition markerPct (d secs : num) : num :=
  if gt d (Fin 0) then mul (div secs d) (Fin 100) else Fin 0.

(** One step of the [map] over the list: [None] is the [null] returned for
    a marker outside the bounds. *)
Definition marker (d : num) (t : Annotation) : option Marker :=
  let secs := timeToSecs (time t) in
  let pct := markerPct d secs in
  if lt pct (Fin 0) || gt pct (Fin 100) then None
  else Some (mkMarker pct secs (time t)
               (match value t with
                | Some v => if truthy_num v then ValueLabel v
                            else TextLabel (text t)
                | None => TextLabel (text t)
                end)).

(** [timecodeList?.map(...)] *)
Definition timecodeMarkers (timecodeList : option (list Annotation))
    (p : Player) : list (option Marker) :=
  match timecodeList with
  | Some l => map (marker (duration p)) l
  | None => []
  end.

End Markers.

(** ** The output section of the application *)

(** What the output section shows. *)
Inductive OutputView : Type :=
| LoadingView
| TableView (rows : list Annotation)
| ChartView (data : list Annotation) (yLabel : string)
| ListView (items : list Annotation)
| SentenceView (items : list Annotation)
| HintView
| NoView.

(** [typeof item.value === 'number'] *)
Definition hasNumber (t : Annotation) : bool :=
  match value t with Some _ => true | None => false end.

Section Output.

(** [modes[m]?.isList], read from the table imported from [./modes]. *)
Variable isList : string -> bool.

Definition output (a : App) : OutputView :=
  if isLoading a then LoadingView
  else
    match timecodeList a with
    | Some l =>
        match activeMode a with
        | Some m =>
            if String.eqb m "Table" then TableView l
            else if String.eqb m "Chart"
                 then ChartView (List.filter hasNumber l) (chartLabel a)
                 else if isList m then ListView l else SentenceView l
        | None => SentenceView l
        end
    | None =>
        if truthy_ostr (vidUrl a) && bool_decide (is_Some (file a))
           && negb (isLoading a)
        then HintView else NoView
    end.

End Output.

(** The [jumpToTimecode] prop of the player is [setRequestedTimecode]; the
    rows, items and sentences of the output call it with
    [timeToSecs(time)], the markers with their [secs]. *)
Definition jumpToTimecode (secs : num) (a : App) : App :=
  setRequestedTimecode (Some secs) a.

(** The events that reach [onModeSelect] through a key press. *)
Definition isKeyDown (ev : Event) : bool :=
  match ev with Ui (KeyDownPrompt _ _) => true | _ => false end.

(** At most one generation request in flight, and the loading flag up while
    there is one. *)
Definition singleFlight (w : World) : Prop :=
  (List.length (requests w) <= 1)%nat
  /\ (requests w <> [] -> isLoading (app w) = true).

(** The two loading flags are up only while the work they announce is
    pending. *)
Definition flagsBacked (w : World) : Prop :=
  (isLoading (app w) = true -> requests w <> [])
  /\ (isLoadingVideo (app w) = true -> uploads w <> []).

(** The media handle in the state, and the one of every generation request
    made so far, was handed out by an upload that the events [evs] report
    as fulfilled. *)
Definition handlesUploaded (evs : list Event) (w : World) : Prop :=
  (forall f, file (app w) = Some f ->
             exists s, In (UploadSettles s (Fulfilled f)) evs)
  /\ (forall prompt declarations f,
         In (GenerateContent prompt declarations f) (effects w) ->
         exists s, In (UploadSettles s (Fulfilled f)) evs).

Definition isRevoke (e : Effect) : bool :=
  match e with RevokeObjectURL _ => true | _ => false end.

(** Every pending upload holds a preview URL that a drop in [evs] created,
    and every URL revoked so far was created by a drop in [evs], which also
    report a rejected upload. *)
Definition revokesAccounted (evs : list Event) (w : World) : Prop :=
  (forall p, In p (uploads w) ->
             exists f, In (FileDrop (Some f) (capturedUrl p)) evs)
  /\ (forall u, In (RevokeObjectURL u) (effects w) ->
                (exists f, In (FileDrop (Some f) u) evs)
                /\ exists s e, In (UploadSettles s (Rejected e)) evs).

(** An application state in which the Custom mode is selected, a video is
    uploaded, and the prompt holds white space only. *)
Definition blankPromptApp : App :=
  mkApp (Some "blob:clip") (Some (mkInfo "files/x" "video/mp4")) None None
        "Custom" None false true false false
        "   " "Excitement" EmptyString EmptyString.

(** A session driven through the Generate button only. *)
Definition buttonSession : list Event :=
  [FileDrop (Some (mkFile "clip.mp4" "video/mp4")) "blob:clip";
   UploadSettles 0 (Fulfilled (mkInfo "files/x" "video/mp4"));
   Ui ClickGenerate; Ui ClickGenerate; Ui (ClickMode "Table");
   Ui ClickGenerate].

(** * Properties *)

(** ** Time codec *)

Section Floor.

Local Open Scope Q_scope.

Lemma Qfloor_unique (x : Q) (n : Z) :
  inject_Z n <= x -> x < inject_Z (n + 1) -> Qfloor x = n.
Proof.
  intros Hlo Hhi.
  pose proof (Qfloor_le x) as Hf.
  pose proof (Qlt_floor x) as Hc.
  assert (Qfloor x < n + 1)%Z
    by (rewrite Zlt_Qlt; eapply Qle_lt_trans; eassumption).
  assert (n < Qfloor x + 1)%Z
    by (rewrite Zlt_Qlt; eapply Qle_lt_trans; eassumption).
  lia.
Qed.

Lemma Qfloor_bounds (x : Q) :
  inject_Z (Qfloor x) <= x /\ x < inject_Z (Qfloor x) + 1.
Proof.
  split; [apply Qfloor_le |].
  pose proof (Qlt_floor x) as H.
  rewrite inject_Z_plus in H. exact H.
Qed.

Lemma Qfloor_div_60 (t : Q) : Qfloor (t / 60) = (Qfloor t / 60)%Z.
Proof.
  destruct (Qfloor_bounds t) as [Hlo Hhi].
  pose proof (Z.div_mod (Qfloor t) 60 ltac:(lia)) as Hdm.
  pose proof (Z.mod_pos_bound (Qfloor t) 60 ltac:(lia)) as Hm.
  set (k := (Qfloor t / 60)%Z) in *.
  set (r := (Qfloor t mod 60)%Z) in *.
  clearbody k r.
  assert (Hq : inject_Z (Qfloor t) == 60 * inject_Z k + inject_Z r).
  { rewrite Hdm, inject_Z_plus, inject_Z_mult. reflexivity. }
  assert (Hr0 : 0 <= inject_Z r) by (change 0 with (inject_Z 0); rewrite <- Zle_Qle; lia).
  assert (Hr1 : inject_Z r <= 59) by (change 59 with (inject_Z 59); rewrite <- Zle_Qle; lia).
  apply Qfloor_unique.
  - apply Qle_shift_div_l; [reflexivity | lra].
  - rewrite inject_Z_plus. apply Qlt_shift_div_r; [reflexivity |].
    change (inject_Z 1) with 1. lra.
Qed.

Lemma Qfloor_sub_Z (t : Q) (k : Z) :
  Qfloor (t - inject_Z k) = (Qfloor t - k)%Z.
Proof.
  destruct (Qfloor_bounds t) as [Hlo Hhi].
  apply Qfloor_unique.
  - unfold Z.sub. rewrite inject_Z_plus, inject_Z_opp. lra.
  - unfold Z.sub. rewrite !inject_Z_plus, inject_Z_opp.
    change (inject_Z 1) with 1. lra.
Qed.

Lemma Qtrunc_nonneg (q : Q) : 0 <= q -> Qtrunc q = Qfloor q.
Proof.
  intros H. unfold Qtrunc.
  destruct (Qle_bool 0 q) eqn:E; [reflexivity |].
  apply Qle_bool_iff in H. congruence.
Qed.

Lemma rem_60_floor (t : Q) :
  0 <= t ->
  Qfloor (t - 60 * inject_Z (Qtrunc (t / 60))) = (Qfloor t mod 60)%Z.
Proof.
  intros Ht.
  assert (H60 : 0 <= t / 60) by (apply Qle_shift_div_l; [reflexivity | lra]).
  rewrite (Qtrunc_nonneg _ H60), Qfloor_div_60.
  assert (E : t - 60 * inject_Z (Qfloor t / 60)
              == t - inject_Z (60 * (Qfloor t / 60))).
  { rewrite inject_Z_mult. reflexivity. }
  rewrite (Qfloor_comp _ _ E), Qfloor_sub_Z.
  rewrite Z.mod_eq by lia. reflexivity.
Qed.

End Floor.

Lemma padStart_seconds (s : Z) :
  0 <= s < 60 -> padStart 2 "0" (decimal s) = twoDigits s.
Proof.
  intros Hs.
  assert (E : s = Z.of_nat (Z.to_nat s)) by lia.
  assert (Hn : (Z.to_nat s < 60)%nat) by lia.
  rewrite E. generalize dependent (Z.to_nat s). clear.
  intros n _ Hn.
  do 60 (destruct n as [| n]; [reflexivity |]).
  lia.
Qed.

Lemma formatTime_shape (t : Q) :
  (0 <= t)%Q ->
  formatTime (Fin t)
  = decimal (Qfloor t / 60) +:+ ":" +:+ twoDigits (Qfloor t mod 60).
Proof.
  intros H.
  unfold formatTime. cbn [div rem Math_floor toString].
  change (Qeq_bool 60 0) with false. cbn iota.
  cbn [Math_floor toString].
  rewrite Qfloor_div_60, (rem_60_floor t H).
  rewrite padStart_seconds by (apply Z.mod_pos_bound; lia).
  reflexivity.
Qed.

(** C9.  For a non-negative number of seconds [formatTime] prints the whole
    minutes in decimal (not reduced modulo anything), a colon, and the
    remaining whole seconds on exactly two digits, fractions of a second
    being dropped; 90 prints as 1:30 and 5 as 0:05. *)
Theorem formatTime_minutes_seconds (t : Q) (H : (0 <= t)%Q) :
  formatTime (Fin t)
  = decimal (Qfloor t / 60) +:+ ":" +:+ twoDigits (Qfloor t mod 60)
  /\ formatTime (Fin 90) = "1:30"
  /\ formatTime (Fin 5) = "0:05".
Proof.
  split; [exact (formatTime_shape t H) | split; reflexivity].
Qed.

Lemma formatTime_minutes_seconds_witness :
  formatTime (Fin (1259 # 10)) = "2:05".
Proof.
  destruct (formatTime_minutes_seconds (1259 # 10) ltac:(vm_compute; discriminate))
    as [E _].
  rewrite E. reflexivity.
Defined.

(** *** Reading the display form back *)

Ltac eval_digit :=
  match goal with
  | |- context [digitValue ?c] =>
      let v := eval vm_compute in (digitValue c) in
      change (digitValue c) with v
  end.

Lemma parseDigits_pos (d : Decimal.uint) :
  forall p : positive,
    parseDigits (Z.pos p) (NilEmpty.string_of_uint d)
    = Some (Z.pos (Pos.of_uint_acc d p)).
Proof.
  induction d as [| d IH | d IH | d IH | d IH | d IH | d IH | d IH | d IH
                  | d IH | d IH]; intros p;
    cbn [NilEmpty.string_of_uint parseDigits Pos.of_uint_acc];
    [reflexivity | ..];
    eval_digit; cbv iota; rewrite <- IH; f_equal; lia.
Qed.

Lemma parseDigits_zero (d : Decimal.uint) :
  parseDigits 0 (NilEmpty.string_of_uint d) = Some (Z.of_N (Pos.of_uint d)).
Proof.
  induction d as [| d IH | d IH | d IH | d IH | d IH | d IH | d IH | d IH
                  | d IH | d IH];
    cbn [NilEmpty.string_of_uint parseDigits Pos.of_uint];
    [reflexivity | eval_digit; cbv iota; exact IH | ..];
    eval_digit; cbv iota; cbn [Z.of_N]; rewrite <- parseDigits_pos;
    reflexivity.
Qed.

Lemma parseInteger_decimal (m : Z) : 0 <= m -> parseInteger (decimal m) = Some m.
Proof.
  intros Hm. destruct m as [| p | p]; [reflexivity | | lia].
  unfold decimal. cbn [Z.to_int NilZero.string_of_int].
  pose proof (DecimalPos.Unsigned.to_uint_nonnil p) as Hnil.
  pose proof (DecimalPos.Unsigned.of_to p) as Hof.
  pose proof (parseDigits_zero (Pos.to_uint p)) as Hd.
  rewrite Hof in Hd. cbn [Z.of_N] in Hd.
  unfold NilZero.string_of_uint, parseInteger.
  destruct (Pos.to_uint p); try congruence; exact Hd.
Qed.

Lemma append_cons (c : ascii) (s r : string) :
  String c s +:+ r = String c (s +:+ r).
Proof. reflexivity. Qed.

Lemma splitColon_cons (c : ascii) (rest : string) :
  splitColon (String c rest)
  = if Ascii.eqb c ":" then EmptyString :: splitColon rest
    else match splitColon rest with
         | part :: parts => String c part :: parts
         | [] => [String c EmptyString]
         end.
Proof. reflexivity. Qed.

Lemma splitColon_digits (d : Decimal.uint) (rest : string) :
  splitColon (NilEmpty.string_of_uint d +:+ String ":" rest)
  = NilEmpty.string_of_uint d :: splitColon rest.
Proof.
  induction d as [| d IH | d IH | d IH | d IH | d IH | d IH | d IH | d IH
                  | d IH | d IH];
    cbn [NilEmpty.string_of_uint]; [reflexivity | ..];
    rewrite append_cons, splitColon_cons, IH; reflexivity.
Qed.

Lemma splitColon_decimal (m : Z) (rest : string) :
  0 <= m ->
  splitColon (decimal m +:+ String ":" rest) = decimal m :: splitColon rest.
Proof.
  intros Hm. destruct m as [| p | p]; [reflexivity | | lia].
  unfold decimal. cbn [Z.to_int NilZero.string_of_int].
  pose proof (DecimalPos.Unsigned.to_uint_nonnil p) as Hnil.
  pose proof (splitColon_digits (Pos.to_uint p) rest) as Hs.
  unfold NilZero.string_of_uint.
  destruct (Pos.to_uint p); try congruence; exact Hs.
Qed.

Lemma twoDigits_parse (sec : Z) :
  0 <= sec < 60 ->
  map parseInteger (splitColon (twoDigits sec)) = [Some sec].
Proof.
  intros Hs.
  assert (E : sec = Z.of_nat (Z.to_nat sec)) by lia.
  assert (Hn : (Z.to_nat sec < 60)%nat) by lia.
  rewrite E. generalize dependent (Z.to_nat sec). clear.
  intros n _ Hn.
  do 60 (destruct n as [| n]; [reflexivity |]).
  lia.
Qed.

(** The display form of a non-negative number of seconds, read back by the
    time codec, is that number rounded down. *)
Lemma formatTime_parses_back (t : Q) :
  (0 <= t)%Q -> parseTimecode (formatTime (Fin t)) = Fin (inject_Z (Qfloor t)).
Proof.
  intros H. rewrite (formatTime_shape t H).
  assert (Hf : 0 <= Qfloor t).
  { rewrite <- (Qfloor_Z 0). apply Qfloor_resp_le. exact H. }
  assert (Hm : 0 <= Qfloor t / 60) by (apply Z.div_pos; lia).
  pose proof (Z.mod_pos_bound (Qfloor t) 60 ltac:(lia)) as Hs.
  unfold parseTimecode.
  change (":" +:+ twoDigits (Qfloor t mod 60))
    with (String ":" (twoDigits (Qfloor t mod 60))).
  rewrite (splitColon_decimal _ _ Hm). cbn [map].
  rewrite (parseInteger_decimal _ Hm), (twoDigits_parse _ Hs).
  do 2 f_equal. pose proof (Z.div_mod (Qfloor t) 60 ltac:(lia)). lia.
Qed.

(** ** Upload and processing poll (api.ts) *)

Section Polling.

Variable resource : string.
Variable statuses : nat -> Settled FileMeta.

Lemma poll_stops left called cur :
  metaState cur <> PROCESSING ->
  pollWhileProcessing left resource statuses called cur = (Fulfilled cur, []).
Proof.
  intros H. destruct left as [| left]; [reflexivity |].
  cbn [pollWhileProcessing]. destruct (metaState cur); congruence.
Qed.

Lemma poll_steps d :
  forall left p cur meta,
    (d <= left)%nat ->
    statuses p = Fulfilled cur ->
    (forall k, (p <= k < p + d)%nat -> answersProcessing statuses k = true) ->
    statuses (p + d) = Fulfilled meta ->
    (metaState meta = PROCESSING -> d = left) ->
    pollWhileProcessing left resource statuses (S p) cur
    = (Fulfilled meta, retryCalls resource d).
Proof.
  induction d as [| d IH]; intros left p cur meta Hle Hcur Hproc Hend Hstop.
  - rewrite Nat.add_0_r in Hend. assert (cur = meta) by congruence. subst cur.
    destruct left as [| left]; [reflexivity |].
    apply poll_stops. intros E. specialize (Hstop E). discriminate.
  - destruct left as [| left]; [lia |].
    assert (Hp : answersProcessing statuses p = true) by (apply Hproc; lia).
    unfold answersProcessing in Hp. rewrite Hcur in Hp.
    cbn [pollWhileProcessing].
    destruct (metaState cur); try discriminate.
    destruct (statuses (S p)) as [next | e] eqn:Hnext.
    + rewrite (IH left (S p) next meta); [reflexivity | lia | assumption | | |].
      * intros k Hk. apply Hproc. lia.
      * replace (S p + d)%nat with (p + S d)%nat by lia. assumption.
      * intros E. specialize (Hstop E). lia.
    + exfalso. destruct d as [| d].
      * replace (p + 1)%nat with (S p) in Hend by lia. congruence.
      * assert (Hq : answersProcessing statuses (S p) = true)
          by (apply Hproc; lia).
        unfold answersProcessing in Hq. rewrite Hnext in Hq. discriminate.
Qed.

Lemma polls_retryCalls d : polls (retryCalls resource d) = d.
Proof. induction d as [| d IH]; [reflexivity |]. cbn. f_equal. exact IH. Qed.

Lemma waited_retryCalls d : waited (retryCalls resource d) = 5000 * Z.of_nat d.
Proof.
  induction d as [| d IH]; [reflexivity |].
  cbn [retryCalls waited fold_right] in *. fold (waited (retryCalls resource d)).
  rewrite IH. lia.
Qed.

Lemma timeouts_retryCalls d ms :
  In (SetTimeout ms) (retryCalls resource d) -> ms = 5000.
Proof.
  induction d as [| d IH]; cbn; [tauto |].
  intros [E | [E | H]]; [congruence | discriminate | auto].
Qed.

Lemma poll_bounded left :
  forall called cur,
    (polls (snd (pollWhileProcessing left resource statuses called cur))
     <= left)%nat.
Proof.
  induction left as [| left IH]; intros called cur; [cbn; lia |].
  cbn [pollWhileProcessing].
  destruct (metaState cur); try (cbn; lia).
  destruct (statuses called) as [next | e]; [| cbn; lia].
  specialize (IH (S called) next).
  destruct (pollWhileProcessing left resource statuses (S called) next)
    as [r calls].
  cbn [snd] in IH.
  change (polls (snd (r, SetTimeout 5000 :: FilesGet resource :: calls)))
    with (S (polls calls)).
  lia.
Qed.

End Polling.

(** Whatever the file service answers, and however its calls fail,
    [uploadFile] asks for the status at most thirteen times. *)
Lemma uploadFile_polls_bounded (f : File) (uploaded : Settled string)
    (statuses : nat -> Settled FileMeta) :
  (polls (snd (uploadFile f uploaded statuses)) <= S maxRetries)%nat.
Proof.
  unfold uploadFile.
  destruct uploaded as [resource | e]; [| cbn; lia].
  destruct (statuses O) as [first | e]; [| cbn; lia].
  pose proof (poll_bounded resource statuses maxRetries 1%nat first) as H.
  destruct (pollWhileProcessing maxRetries resource statuses 1 first)
    as [r calls].
  assert (Hp : polls (FilesUpload f :: FilesGet resource :: calls)
               = S (polls calls)) by reflexivity.
  cbn [snd] in H.
  destruct r as [getFile | e]; [destruct (metaState getFile) |];
    cbn [snd]; rewrite Hp; lia.
Qed.

Lemma uploadFile_trace (f : File) (resource : string)
    (statuses : nat -> Settled FileMeta) (n : nat) (meta : FileMeta) :
  (n <= maxRetries)%nat ->
  forallb (answersProcessing statuses) (seq 0 n) = true ->
  statuses n = Fulfilled meta ->
  (metaState meta = PROCESSING -> n = maxRetries) ->
  uploadFile f (Fulfilled resource) statuses
  = (settleWith f meta,
     FilesUpload f :: FilesGet resource :: retryCalls resource n).
Proof.
  intros Hn Hall Hend Hstop.
  assert (Hproc : forall k, (0 <= k < 0 + n)%nat ->
                            answersProcessing statuses k = true).
  { intros k Hk. rewrite forallb_forall in Hall. apply Hall, in_seq. lia. }
  assert (H0 : exists first, statuses O = Fulfilled first).
  { destruct n as [| n]; [eauto |].
    specialize (Hproc O ltac:(lia)). unfold answersProcessing in Hproc.
    destruct (statuses O); [eauto | discriminate]. }
  destruct H0 as [first H0].
  unfold uploadFile. rewrite H0.
  rewrite (poll_steps resource statuses n maxRetries O first meta
             Hn H0 Hproc Hend Hstop).
  unfold settleWith. destruct (metaState meta); reflexivity.
Qed.

(** C5, as the code has it.  The status request is made once before the loop
    and once per retry, each retry after a wait of 5000 ms, for at most 12
    retries: 13 requests in all.  When request number [n] (counting from 0)
    is the first whose answer is not PROCESSING, or the thirteenth, the
    upload settles on that answer after [n + 1] requests and [n] waits:
    ACTIVE gives the media handle, FAILED the processing failure, and a
    thirteenth PROCESSING the time-out.  So PROCESSING, PROCESSING, ACTIVE is
    ready after exactly 3 requests, and PROCESSING throughout times out
    after 13 requests and 60 s. *)
Theorem uploadFile_polling (f : File) (resource : string)
    (statuses : nat -> Settled FileMeta) (n : nat) (meta : FileMeta) :
  (n <= maxRetries)%nat ->
  forallb (answersProcessing statuses) (seq 0 n) = true ->
  statuses n = Fulfilled meta ->
  (metaState meta = PROCESSING -> n = maxRetries) ->
  (let '(r, trace) := uploadFile f (Fulfilled resource) statuses in
   r = settleWith f meta
   /\ polls trace = S n
   /\ waited trace = 5000 * Z.of_nat n
   /\ (forall ms, In (SetTimeout ms) trace -> ms = 5000)
   /\ (metaState meta = ACTIVE -> exists media, terminal r = Ready media)
   /\ (metaState meta = FAILED -> terminal r = Failed ProcessingFailed)
   /\ (metaState meta = PROCESSING -> terminal r = Failed ProcessingTimeout))
  /\ (let '(r, trace) :=
        uploadFile f (Fulfilled resource)
                   (answers [PROCESSING; PROCESSING] ACTIVE) in
      terminal r = Ready (mkInfo "files/x" "video/mp4")
      /\ polls trace = 3%nat /\ waited trace = 10000)
  /\ (let '(r, trace) :=
        uploadFile f (Fulfilled resource) (answers [] PROCESSING) in
      terminal r = Failed ProcessingTimeout
      /\ polls trace = 13%nat /\ waited trace = 60000).
Proof.
  intros Hn Hall Hend Hstop.
  split; [| split; [vm_compute; auto | vm_compute; auto]].
  rewrite (uploadFile_trace f resource statuses n meta Hn Hall Hend Hstop).
  repeat split.
  - change (polls (FilesUpload f :: FilesGet resource :: retryCalls resource n))
      with (S (polls (retryCalls resource n))).
    f_equal. apply polls_retryCalls.
  - change (waited (FilesUpload f :: FilesGet resource :: retryCalls resource n))
      with (waited (retryCalls resource n)).
    apply waited_retryCalls.
  - intros ms [E | [E | H]]; [discriminate | discriminate |].
    exact (timeouts_retryCalls resource n ms H).
  - intros E. unfold settleWith. rewrite E. eexists. reflexivity.
  - intros E. unfold settleWith. rewrite E. reflexivity.
  - intros E. unfold settleWith. rewrite E. reflexivity.
Qed.

Lemma uploadFile_polling_witness :
  let statuses := answers [PROCESSING; PROCESSING] ACTIVE in
  let '(r, trace) :=
    uploadFile (mkFile "clip.mp4" "video/mp4") (Fulfilled "files/x") statuses in
  terminal r = Ready (mkInfo "files/x" "video/mp4") /\ polls trace = 3%nat.
Proof.
  pose proof (uploadFile_polling (mkFile "clip.mp4" "video/mp4") "files/x"
                (answers [PROCESSING; PROCESSING] ACTIVE) 2
                (mkMeta ACTIVE "files/x" (Some "video/mp4"))
                ltac:(vm_compute; lia) ltac:(reflexivity) ltac:(reflexivity)
                ltac:(discriminate)) as [H _].
  cbv zeta.
  destruct (uploadFile _ _ _) as [r trace].
  destruct H as (Hr & Hp & _). rewrite Hr. split; [reflexivity | exact Hp].
Defined.

(** C5, as stated, fails: after twelve status requests that all answered
    PROCESSING the code asks a thirteenth time, and an ACTIVE answer then
    makes the upload ready instead of timed out. *)
Lemma twelve_processing_answers_then_active :
  let statuses := answers (repeat PROCESSING 12) ACTIVE in
  let '(r, trace) :=
    uploadFile (mkFile "clip.mp4" "video/mp4") (Fulfilled "files/x") statuses in
  forallb (answersProcessing statuses) (seq 0 12) = true
  /\ terminal r = Ready (mkInfo "files/x" "video/mp4")
  /\ terminal r <> Failed ProcessingTimeout
  /\ polls trace = 13%nat.
Proof. vm_compute. repeat split; discriminate. Qed.

(** ** Function-call router *)

Lemma fnMap_set_timecodes : fnMap !! "set_timecodes" = Some setTimecodes.
Proof. reflexivity. Qed.

Lemma fnMap_set_timecodes_with_objects :
  fnMap !! "set_timecodes_with_objects" = Some setTimecodes.
Proof. reflexivity. Qed.

Lemma fnMap_set_timecodes_with_numeric_values :
  fnMap !! "set_timecodes_with_numeric_values" = Some setTimecodesNumeric.
Proof. reflexivity. Qed.

Lemma fnMap_registered (capability : string) :
  is_Some (fnMap !! capability) <->
  capability = "set_timecodes"
  \/ capability = "set_timecodes_with_objects"
  \/ capability = "set_timecodes_with_numeric_values".
Proof.
  unfold fnMap. rewrite !lookup_insert_is_Some, lookup_empty.
  split.
  - intros [E | [_ [E | [_ [E | [_ H]]]]]]; auto.
    destruct H as [? H]; discriminate.
  - intros [E | [E | E]]; subst; [auto | |]; right; (split; [discriminate |]);
      [auto |].
    right. split; [discriminate |]. auto.
Qed.

Lemma dispatch_own (resp : Response) (call : FunctionCall) (a : App)
    (handler : Payload -> App -> App) :
  firstCall resp = Some call ->
  fnMap !! name call = Some handler ->
  dispatch resp a = (handler (args call) a, [], None).
Proof.
  intros Hc Hh. unfold dispatch, fnMap_get. rewrite Hc, Hh. reflexivity.
Qed.

Lemma settled_own (resp : Response) (call : FunctionCall) (a : App)
    (handler : Payload -> App -> App) (scrollRefCurrent : bool) :
  firstCall resp = Some call ->
  fnMap !! name call = Some handler ->
  fst (onModeSelect_settled scrollRefCurrent (Fulfilled resp) a)
  = setIsLoading false (handler (args call) a).
Proof.
  intros Hc Hh. unfold onModeSelect_settled.
  rewrite (dispatch_own resp call a handler Hc Hh). reflexivity.
Qed.

Lemma unescapeQuotes_cons (c c' : ascii) (r : string) :
  unescapeQuotes (String c (String c' r))
  = if Ascii.eqb c "\" && Ascii.eqb c' "'"
    then String "'" (unescapeQuotes r)
    else String c (unescapeQuotes (String c' r)).
Proof. reflexivity. Qed.

(** X11.  An escaped quote anywhere in a text becomes a quote, and the text
    before it and the text after it are cleaned independently. *)
Lemma unescapeQuotes_app (s1 s2 : string) :
  unescapeQuotes (s1 +:+ "\'" +:+ s2)
  = unescapeQuotes s1 +:+ "'" +:+ unescapeQuotes s2.
Proof.
  remember (String.length s1) as n eqn:Hn.
  revert s1 Hn. induction n as [n IH] using lt_wf_ind. intros s1 Hn.
  destruct s1 as [| c [| c' r]].
  - reflexivity.
  - change (unescapeQuotes (String c (String "\" (String "'" s2)))
            = String c (String "'" (unescapeQuotes s2))).
    rewrite unescapeQuotes_cons.
    change (Ascii.eqb "\" "'") with false. rewrite andb_false_r.
    reflexivity.
  - change (String c (String c' r) +:+ "\'" +:+ s2)
      with (String c (String c' (r +:+ "\'" +:+ s2))).
    rewrite !unescapeQuotes_cons.
    destruct (Ascii.eqb c "\" && Ascii.eqb c' "'") eqn:E.
    + rewrite (IH (String.length r)); [reflexivity | cbn in Hn; lia | reflexivity].
    + change (String c' (r +:+ "\'" +:+ s2))
        with (String c' r +:+ "\'" +:+ s2).
      rewrite (IH (String.length (String c' r)));
        [reflexivity | cbn in Hn |- *; lia | reflexivity].
Qed.

Lemma cleanText_storedFor (t : Annotation) : cleanText t = storedFor t.
Proof.
  unfold cleanText, storedFor. destruct (text t) as [[| c s] |]; reflexivity.
Qed.

(** C1, as the code has it.  When the first function call of a response
    names set_timecodes or set_timecodes_with_objects, the list stored has,
    entry by entry, the incoming time, objects and value, and as text the
    incoming text with each backslash-quote replaced by a quote;
    set_timecodes_with_numeric_values stores the incoming entries as they
    are.  The response with the single entry 0:05, a\'b under set_timecodes
    stores 0:05, a'b. *)
Theorem router_unescapes_text (resp : Response) (call : FunctionCall)
    (a : App) (scrollRefCurrent : bool) :
  firstCall resp = Some call ->
  let stored :=
    timecodeList (fst (onModeSelect_settled scrollRefCurrent (Fulfilled resp) a)) in
  (name call = "set_timecodes" \/ name call = "set_timecodes_with_objects" ->
   stored = Some (map storedFor (timecodes (args call))))
  /\ (name call = "set_timecodes_with_numeric_values" ->
      stored = Some (timecodes (args call)))
  /\ timecodeList
       (fst (onModeSelect_settled scrollRefCurrent
               (Fulfilled
                  (mkResponse
                     (Some [mkCall "set_timecodes"
                              (mkPayload
                                 [mkAnnotation "0:05" (Some "a\'b") None None])])
                     None))
               a))
     = Some [mkAnnotation "0:05" (Some "a'b") None None].
Proof.
  intros Hc stored. subst stored. split; [| split].
  - intros Hn.
    assert (Hh : fnMap !! name call = Some setTimecodes).
    { destruct Hn as [-> | ->]; reflexivity. }
    rewrite (settled_own resp call a setTimecodes _ Hc Hh).
    cbn. f_equal. apply map_ext. exact cleanText_storedFor.
  - intros Hn.
    assert (Hh : fnMap !! name call = Some setTimecodesNumeric)
      by (rewrite Hn; reflexivity).
    rewrite (settled_own resp call a setTimecodesNumeric _ Hc Hh).
    reflexivity.
  - reflexivity.
Qed.

Lemma router_unescapes_text_witness :
  timecodeList
    (fst (onModeSelect_settled true
            (Fulfilled
               (mkResponse
                  (Some [mkCall "set_timecodes_with_objects"
                           (mkPayload
                              [mkAnnotation "1:02" (Some "it\'s") (Some ["cup"]) None;
                               mkAnnotation "1:09" None (Some []) None])])
                  None))
            sampleApp))
  = Some [mkAnnotation "1:02" (Some "it's") (Some ["cup"]) None;
          mkAnnotation "1:09" (Some "") (Some []) None].
Proof.
  pose proof
    (router_unescapes_text
       (mkResponse
          (Some [mkCall "set_timecodes_with_objects"
                   (mkPayload
                      [mkAnnotation "1:02" (Some "it\'s") (Some ["cup"]) None;
                       mkAnnotation "1:09" None (Some []) None])])
          None)
       (mkCall "set_timecodes_with_objects"
          (mkPayload
             [mkAnnotation "1:02" (Some "it\'s") (Some ["cup"]) None;
              mkAnnotation "1:09" None (Some []) None]))
       sampleApp true ltac:(reflexivity)) as [H _].
  rewrite (H ltac:(right; reflexivity)). reflexivity.
Defined.

(** C1, as stated, fails: an escaped quote in a text that arrives through
    set_timecodes_with_numeric_values is stored as it came. *)
Lemma numeric_values_keep_escaped_quote :
  timecodeList
    (fst (onModeSelect_settled true
            (Fulfilled
               (mkResponse
                  (Some [mkCall "set_timecodes_with_numeric_values"
                           (mkPayload
                              [mkAnnotation "0:05" (Some "a\'b") None
                                            (Some (Fin 3))])])
                  None))
            sampleApp))
  = Some [mkAnnotation "0:05" (Some "a\'b") None (Some (Fin 3))]
  /\ unescapeQuotes "a\'b" = "a'b"
  /\ "a\'b" <> "a'b".
Proof. repeat split. discriminate. Qed.

(** C10.  Whatever the payload, set_timecodes and set_timecodes_with_objects
    store a list in which every entry has a text that is a string, the empty
    string where the incoming text was missing or empty, the other fields
    being the incoming ones; set_timecodes_with_numeric_values stores the
    payload entries unchanged. *)
Theorem handlers_default_text (p : Payload) (a : App) (handler : Payload -> App -> App) :
  fnMap !! "set_timecodes" = Some handler
  \/ fnMap !! "set_timecodes_with_objects" = Some handler ->
  (exists stored,
      timecodeList (handler p a) = Some stored
      /\ Forall2 (fun t s =>
                    (exists txt, text s = Some txt
                                 /\ (truthy_ostr (text t) = false -> txt = EmptyString))
                    /\ time s = time t /\ objects s = objects t
                    /\ value s = value t)
                 (timecodes p) stored)
  /\ (exists numeric,
         fnMap !! "set_timecodes_with_numeric_values" = Some numeric
         /\ timecodeList (numeric p a) = Some (timecodes p)).
Proof.
  intros Hh.
  assert (handler = setTimecodes) as ->.
  { destruct Hh as [Hh | Hh];
      [rewrite fnMap_set_timecodes in Hh
      | rewrite fnMap_set_timecodes_with_objects in Hh]; congruence. }
  split.
  - exists (map cleanText (timecodes p)). split; [reflexivity |].
    induction (timecodes p) as [| t l IH]; constructor; [| exact IH].
    split; [| repeat split].
    exists (if truthy_ostr (text t)
            then unescapeQuotes (default EmptyString (text t))
            else EmptyString).
    split; [reflexivity |]. intros ->. reflexivity.
  - exists setTimecodesNumeric. split; reflexivity.
Qed.

Lemma handlers_default_text_witness :
  let p := mkPayload [mkAnnotation "0:03" None (Some ["dog"]) None;
                      mkAnnotation "0:04" (Some "") None None] in
  fnMap !! "set_timecodes" = Some setTimecodes
  /\ (exists stored,
         timecodeList (setTimecodes p sampleApp) = Some stored
         /\ Forall2 (fun t s =>
                       (exists txt, text s = Some txt
                                    /\ (truthy_ostr (text t) = false
                                        -> txt = EmptyString))
                       /\ time s = time t /\ objects s = objects t
                       /\ value s = value t)
                    (timecodes p) stored).
Proof.
  intros p. split; [reflexivity |].
  apply (handlers_default_text p sampleApp setTimecodes).
  left. reflexivity.
Defined.

(** When the first function call names a capability that is not registered
    in the map, the response changes nothing but the loading flag, which is
    cleared: the annotation list and the error flag keep their values, and
    no exception leaves the handler.  When moreover the lookup of the name
    finds nothing at all (the name is not one the object inherits either),
    what is logged is that the function was not found. *)
Theorem unknown_capability_is_ignored (resp : Response) (call : FunctionCall)
    (a : App) (scrollRefCurrent : bool) :
  firstCall resp = Some call ->
  fnMap !! name call = None ->
  let '(a', eff) := onModeSelect_settled scrollRefCurrent (Fulfilled resp) a in
  a' = setIsLoading false a
  /\ timecodeList a' = timecodeList a
  /\ videoError a' = videoError a
  /\ isLoading a' = false
  /\ (fnMap_get (name call) = None ->
      dispatch resp a
      = (a, [ConsoleError ["Function " +:+ name call
                           +:+ " not found in function map."]], None)
      /\ eff = ConsoleError ["Function " +:+ name call
                             +:+ " not found in function map."]
               :: (if scrollRefCurrent then [ScrollToTop] else [])).
Proof.
  intros Hc Hn.
  unfold onModeSelect_settled, dispatch. rewrite Hc.
  unfold fnMap_get. rewrite Hn.
  destruct (Object_prototype !! name call) as [[|] |]; cbn;
    (repeat split; try reflexivity); intros; discriminate.
Qed.

Lemma unknown_capability_is_ignored_witness :
  onModeSelect_settled true
    (Fulfilled (mkResponse (Some [mkCall "set_chapters" (mkPayload [])]) None))
    (setTimecodeList (Some [mkAnnotation "0:01" (Some "intro") None None])
                     sampleApp)
  = (setTimecodeList (Some [mkAnnotation "0:01" (Some "intro") None None])
                     sampleApp,
     [ConsoleError ["Function set_chapters not found in function map."];
      ScrollToTop]).
Proof.
  pose proof
    (unknown_capability_is_ignored
       (mkResponse (Some [mkCall "set_chapters" (mkPayload [])]) None)
       (mkCall "set_chapters" (mkPayload []))
       (setTimecodeList (Some [mkAnnotation "0:01" (Some "intro") None None])
                        sampleApp)
       true ltac:(reflexivity) ltac:(reflexivity)) as H.
  destruct (onModeSelect_settled _ _ _) as [a' eff].
  destruct H as (Ha & _ & _ & _ & He).
  destruct (He ltac:(reflexivity)) as [_ Heff].
  rewrite Ha, Heff. reflexivity.
Defined.

Ltac eval_lookup :=
  match goal with
  | |- context [fnMap_get ?n] =>
      let v := eval vm_compute in (fnMap_get n) in
      change (fnMap_get n) with v
  end.

(** C8, evaluated.  The test [fnMap[call.name]] also finds what the object
    literal inherits.  A first function call under one of these twelve
    names, none of which is registered, is not reported as not found: for
    nine of them the inherited method is called and nothing at all is
    logged, for the other three the call throws and the catch logs a
    generation error.  In every case the state only loses its loading
    flag. *)
Theorem inherited_names_are_not_reported (a : App) (payload : Payload)
    (rest : list FunctionCall) (t : option string) (scrollRefCurrent : bool) :
  let settle n :=
    onModeSelect_settled scrollRefCurrent
      (Fulfilled (mkResponse (Some (mkCall n payload :: rest)) t)) a in
  let scroll := if scrollRefCurrent then [ScrollToTop] else [] in
  Forall (fun n => fnMap !! n = None
                   /\ settle n = (setIsLoading false a, scroll))
         ["constructor"; "hasOwnProperty"; "isPrototypeOf";
          "propertyIsEnumerable"; "toLocaleString"; "toString"; "valueOf";
          "__lookupGetter__"; "__lookupSetter__"]
  /\ Forall (fun n => fnMap !! n = None
                      /\ exists msg,
                          settle n
                          = (setIsLoading false a,
                             ConsoleError ["Error generating content:"; msg]
                             :: scroll))
            ["__defineGetter__"; "__defineSetter__"; "__proto__"].
Proof.
  cbv zeta. split; repeat constructor;
    unfold onModeSelect_settled, dispatch;
    cbn [firstCall functionCalls name]; eval_lookup;
    destruct scrollRefCurrent; try reflexivity; eexists; reflexivity.
Qed.

(** ** Drop handler *)

(** C7.  A dropped file whose type does not start with video/ is never
    handed to [uploadFile]: the handler leaves no upload pending, raises the
    error flag, clears the loading flag and discards the media handle, the
    preview URL and the annotation list, all before it returns. *)
Theorem non_video_drop_fails_without_upload (modes : ModeTable) (f : File)
    (objectUrl : string) (w : World) :
  startsWith (file_type f) "video/" = false ->
  (let '(a', eff, captured) := uploadVideo (Some f) objectUrl (app w) in
   existsb isUploadFile eff = false
   /\ captured = None
   /\ videoError a' = true
   /\ isLoadingVideo a' = false
   /\ file a' = None /\ vidUrl a' = None /\ timecodeList a' = None)
  /\ (let w' := exec modes (FileDrop (Some f) objectUrl) w in
      uploads w' = uploads w
      /\ videoError (app w') = true
      /\ List.filter isUploadFile (effects w')
         = List.filter isUploadFile (effects w)).
Proof.
  intros Hty. unfold exec, uploadVideo. rewrite Hty. cbn.
  repeat split.
  rewrite List.filter_app. cbn. apply app_nil_r.
Qed.

Lemma non_video_drop_fails_without_upload_witness :
  startsWith "application/pdf" "video/" = false
  /\ (let w' := exec sampleModes
                     (FileDrop (Some (mkFile "notes.pdf" "application/pdf")) "blob:1")
                     (initialWorld sampleModes) in
      uploads w' = uploads (initialWorld sampleModes)
      /\ videoError (app w') = true
      /\ List.filter isUploadFile (effects w')
         = List.filter isUploadFile (effects (initialWorld sampleModes))).
Proof.
  split; [reflexivity |].
  exact (proj2 (non_video_drop_fails_without_upload sampleModes
                  (mkFile "notes.pdf" "application/pdf") "blob:1"
                  (initialWorld sampleModes) eq_refl)).
Defined.

(** ** Request orchestration *)

(** C3, as the code has it.  When the generation request fails, the
    annotation list keeps its value and the loading flag is cleared, and the
    failure is written to the console; the error flag is left as it was. *)
Theorem generation_failure_is_only_logged (e : Error) (a : App)
    (scrollRefCurrent : bool) :
  let '(a', eff) := onModeSelect_settled scrollRefCurrent (Rejected e) a in
  timecodeList a' = timecodeList a
  /\ isLoading a' = false
  /\ videoError a' = videoError a
  /\ a' = setIsLoading false a
  /\ eff = ConsoleError ["Error generating content:"; message e]
           :: (if scrollRefCurrent then [ScrollToTop] else []).
Proof. repeat split. Qed.

(** The session in which the failure is observed: a video is dropped and
    uploaded, Generate is clicked, and the request is rejected. *)
Example generation_failure_session :
  let w := run sampleModes
             [FileDrop (Some (mkFile "clip.mp4" "video/mp4")) "blob:clip";
              UploadSettles 0 (Fulfilled (mkInfo "files/x" "video/mp4"));
              Ui ClickGenerate;
              GenerationSettles 0 (Rejected (TransportError "fetch failed"))]
             (initialWorld sampleModes) in
  videoError (app w) = false
  /\ isLoading (app w) = false
  /\ List.length (List.filter isGenerateContent (effects w)) = 1%nat.
Proof. vm_compute. auto. Qed.

(** The Generate button is the guarded way into [onModeSelect]. *)
Lemma generate_button_disabled_while_loading (modes : ModeTable) (a : App) :
  isLoading a = true -> onUiEvent modes ClickGenerate a = (a, []).
Proof.
  intros H. unfold onUiEvent.
  destruct (negb (selectorRendered a)); [reflexivity |].
  unfold generateDisabled. rewrite H.
  destruct (hasSubMode a); reflexivity.
Qed.

(** [onModeSelect] itself looks at the media handle only. *)
Lemma onModeSelect_ignores_isLoading (modes : ModeTable) (mode : string)
    (a : App) (f : UploadedFileInfo) :
  file a = Some f ->
  snd (onModeSelect modes mode a)
  = [GenerateContent (currentPrompt modes mode a) declaredFunctions f].
Proof. intros H. unfold onModeSelect. rewrite H. reflexivity. Qed.

Lemma UiEvent_eq_dec_generate (e : UiEvent) :
  {e = ClickGenerate} + {e <> ClickGenerate}.
Proof. destruct e; (left; reflexivity) || (right; discriminate). Qed.

(** Through the Generate button alone the requests are serialised. *)
Lemma onUiEvent_quiet (modes : ModeTable) (e : UiEvent) (a : App) :
  e <> ClickGenerate ->
  (forall key shiftKey, e <> KeyDownPrompt key shiftKey) ->
  snd (onUiEvent modes e a) = []
  /\ isLoading (fst (onUiEvent modes e a)) = isLoading a.
Proof.
  intros Hg Hk. unfold onUiEvent.
  destruct (negb (selectorRendered a)); [split; reflexivity |].
  destruct e; try congruence;
    try (exfalso; eapply Hk; reflexivity);
    repeat match goal with
           | |- context [if ?b then _ else _] => destruct b
           end; split; reflexivity.
Qed.

Lemma generateDisabled_false (a : App) :
  generateDisabled a = false ->
  isLoading a = false /\ exists f, file a = Some f.
Proof.
  unfold generateDisabled. intros H.
  assert (H' : isLoading a || negb (bool_decide (is_Some (file a))) = false).
  { destruct (hasSubMode a); [| exact H].
    destruct (isLoading a || negb (bool_decide (is_Some (file a))));
      [discriminate | reflexivity]. }
  apply orb_false_elim in H' as [Hl Hf]. split; [exact Hl |].
  apply negb_false_iff, bool_decide_eq_true in Hf. exact Hf.
Qed.

Lemma exec_singleFlight (modes : ModeTable) (ev : Event) (w : World) :
  isKeyDown ev = false -> singleFlight w -> singleFlight (exec modes ev w).
Proof.
  intros Hev [Hlen Hload]. destruct ev as [e | d u | s r | n r].
  - destruct (UiEvent_eq_dec_generate e) as [-> | Hg].
    + cbn [exec]. unfold onUiEvent.
      destruct (negb (selectorRendered (app w))); [split; assumption |].
      destruct (generateDisabled (app w)) eqn:Hd; [split; assumption |].
      destruct (generateDisabled_false _ Hd) as [Hl [f Hf]].
      unfold onModeSelect. rewrite Hf. cbn.
      assert (requests w = []) as ->.
      { destruct (requests w) as [| k l]; [reflexivity |].
        rewrite Hload in Hl; [discriminate | discriminate]. }
      split; [cbn; lia | reflexivity].
    + assert (Hk : forall key shiftKey, e <> KeyDownPrompt key shiftKey)
        by (intros key shiftKey ->; discriminate).
      destruct (onUiEvent_quiet modes e (app w) Hg Hk) as [He Ha].
      cbn [exec]. destruct (onUiEvent modes e (app w)) as [a eff].
      cbn [fst snd] in He, Ha. subst eff. unfold singleFlight. cbn.
      split; [exact Hlen | rewrite Ha; exact Hload].
  - cbn [exec]. unfold uploadVideo.
    destruct d as [f |]; [destruct (negb (startsWith (file_type f) "video/")) |];
      split; assumption.
  - cbn [exec]. destruct (findUpload s w); [| split; assumption].
    destruct r; split; assumption.
  - cbn [exec]. unfold isPendingRequest.
    destruct (existsb (Nat.eqb n) (requests w)) eqn:Hp; [| split; assumption].
    assert (requests w = [n]) as ->.
    { destruct (requests w) as [| k [| k' l]]; [discriminate | | cbn in Hlen; lia].
      cbn in Hp. rewrite orb_false_r in Hp. apply Nat.eqb_eq in Hp. congruence. }
    destruct (onModeSelect_settled true r (app w)) as [a eff].
    unfold singleFlight. cbn. rewrite Nat.eqb_refl. cbn.
    split; [lia | congruence].
Qed.

Lemma run_singleFlight (modes : ModeTable) (evs : list Event) :
  forall w,
    forallb (fun ev => negb (isKeyDown ev)) evs = true ->
    singleFlight w -> singleFlight (run modes evs w).
Proof.
  induction evs as [| ev evs IH]; intros w Hevs Hw; [exact Hw |].
  cbn in Hevs. apply andb_prop in Hevs as [Hev Hevs].
  apply negb_true_iff in Hev.
  apply (IH (exec modes ev w) Hevs). apply exec_singleFlight; assumption.
Qed.

(** X16.  As long as the Enter key is not pressed in a prompt field, at most
    one generation request is in flight at any time, and the loading flag is
    up while there is one. *)
Lemma button_sessions_are_single_flight (modes : ModeTable)
    (evs : list Event) :
  forallb (fun ev => negb (isKeyDown ev)) evs = true ->
  singleFlight (run modes evs (initialWorld modes)).
Proof.
  intros H. apply run_singleFlight; [exact H |].
  split; [cbn; lia | intros E; exfalso; apply E; reflexivity].
Qed.

(** C2, evaluated.  With a request in flight the Generate button does
    nothing, but the Enter key in the prompt field calls [onModeSelect]
    again: a second request is issued, and its response replaces the
    annotation list. *)
Theorem second_request_while_loading :
  let before :=
    run sampleModes
        [FileDrop (Some (mkFile "clip.mp4" "video/mp4")) "blob:clip";
         UploadSettles 0 (Fulfilled (mkInfo "files/x" "video/mp4"));
         Ui (ClickMode "Custom");
         Ui (ChangeCustomPrompt "count the birds");
         Ui (KeyDownPrompt "Enter" false)]
        (initialWorld sampleModes) in
  let clicked := exec sampleModes (Ui ClickGenerate) before in
  let entered := exec sampleModes (Ui (KeyDownPrompt "Enter" false)) before in
  let answered :=
    run sampleModes
        [GenerationSettles 0
           (Fulfilled (mkResponse
              (Some [mkCall "set_timecodes"
                       (mkPayload [mkAnnotation "0:01" (Some "one") None None])])
              None));
         GenerationSettles 1
           (Fulfilled (mkResponse
              (Some [mkCall "set_timecodes"
                       (mkPayload [mkAnnotation "0:02" (Some "two") None None])])
              None))]
        entered in
  isLoading (app before) = true
  /\ requests before = [0%nat]
  /\ clicked = before
  /\ requests entered = [0%nat; 1%nat]
  /\ List.length (List.filter isGenerateContent (effects entered)) = 2%nat
  /\ timecodeList (app answered)
     = Some [mkAnnotation "0:02" (Some "two") None None].
Proof. vm_compute. repeat split. Qed.

(** ** Uploads that outlive their drop *)

Lemma isStale_pending (s : nat) (w : World) :
  isStale s w = true -> exists p, findUpload s w = Some p.
Proof.
  unfold isStale. intros H. apply andb_prop in H as [H _].
  apply bool_decide_eq_true in H. destruct H as [p H]. eauto.
Qed.

(** C4, as the code has it.  [uploadVideo] carries no session check.  When
    the upload of an earlier drop settles after a newer drop, the
    continuation leaves the annotation list, the active mode, the requested
    timecode and the requests in flight as they are, and writes the rest: on
    success the media handle becomes the one of the stale upload and the
    video-loading flag is cleared; on failure the media handle and the
    preview URL are cleared, the error flag is raised and the video-loading
    flag is cleared. *)
Theorem stale_upload_settlement (modes : ModeTable) (w : World) (s : nat)
    (r : Settled UploadedFileInfo) :
  isStale s w = true ->
  let w' := exec modes (UploadSettles s r) w in
  timecodeList (app w') = timecodeList (app w)
  /\ activeMode (app w') = activeMode (app w)
  /\ requestedTimecode (app w') = requestedTimecode (app w)
  /\ requests w' = requests w
  /\ match r with
     | Fulfilled info =>
         file (app w') = Some info
         /\ isLoadingVideo (app w') = false
         /\ vidUrl (app w') = vidUrl (app w)
         /\ videoError (app w') = videoError (app w)
     | Rejected _ =>
         file (app w') = None
         /\ vidUrl (app w') = None
         /\ videoError (app w') = true
         /\ isLoadingVideo (app w') = false
     end.
Proof.
  intros H. destruct (isStale_pending s w H) as [p Hp].
  unfold exec. rewrite Hp. destruct r; cbn; repeat split.
Qed.

Lemma stale_upload_settlement_witness :
  isStale 0 twoDrops = true
  /\ (let w' := exec sampleModes
                     (UploadSettles 0 (Rejected (FileNotActive PROCESSING)))
                     twoDrops in
      timecodeList (app w') = timecodeList (app twoDrops)
      /\ activeMode (app w') = activeMode (app twoDrops)
      /\ requestedTimecode (app w') = requestedTimecode (app twoDrops)
      /\ requests w' = requests twoDrops
      /\ file (app w') = None
      /\ vidUrl (app w') = None
      /\ videoError (app w') = true
      /\ isLoadingVideo (app w') = false).
Proof.
  split; [reflexivity |].
  exact (stale_upload_settlement sampleModes twoDrops 0
           (Rejected (FileNotActive PROCESSING)) eq_refl).
Defined.

(** C4, as stated, fails: the first drop's upload settles after the second
    drop's, and the media handle of the second session is replaced by the
    handle of the first file, under the preview of the second. *)
Lemma stale_upload_overwrites_media_handle :
  let w' := exec sampleModes
                 (UploadSettles 0 (Fulfilled (mkInfo "files/first" "video/mp4")))
                 twoDrops in
  isStale 0 twoDrops = true
  /\ currentSession twoDrops = 1%nat
  /\ file (app twoDrops) = Some (mkInfo "files/second" "video/mp4")
  /\ vidUrl (app w') = Some "blob:second"
  /\ file (app w') = Some (mkInfo "files/first" "video/mp4")
  /\ app w' <> app twoDrops.
Proof. vm_compute. repeat split. discriminate. Qed.

(** ** Caption under the playback position *)

Section Caption.

Variable timeToSecs : string -> num.

Lemma find_skip (P : Annotation -> bool) (l1 l2 : list Annotation) :
  forallb (fun t => negb (P t)) l1 = true ->
  List.find P (l1 ++ l2) = List.find P l2.
Proof.
  induction l1 as [| t l1 IH]; [reflexivity |].
  cbn. intros H. apply andb_prop in H as [Ht Hl].
  destruct (P t); [discriminate | auto].
Qed.

Lemma forallb_rev (P : Annotation -> bool) (l : list Annotation) :
  forallb P (List.rev l) = forallb P l.
Proof.
  induction l as [| t l IH]; [reflexivity |].
  cbn. rewrite forallb_app, IH. cbn. rewrite andb_true_r. apply andb_comm.
Qed.

Lemma caption_of (l : list Annotation) (v : Video) (p : Player) :
  currentCaption (updateTime timeToSecs (Some l) (Some v) p)
  = List.find (qualifies timeToSecs (currentTime v)) (List.rev l) ≫= text.
Proof. unfold updateTime. cbn. reflexivity. Qed.

End Caption.

(** C6.  With an annotation list and a video element present, the caption
    set on a time update is the text of the entry nearest the end of the
    list among those whose time is at or before the playback position, and
    it is cleared when there is no such entry.  With entries at 0:05 and
    0:10 in this order, position 7 gives the first and position 12 the
    second. *)
Theorem caption_is_last_qualifying_entry (timeToSecs : string -> num)
    (l : list Annotation) (v : Video) (p : Player) :
  let caption l v := currentCaption (updateTime timeToSecs (Some l) (Some v) p) in
  let late now t := negb (qualifies timeToSecs now t) in
  (forall before t after,
      l = before ++ t :: after ->
      qualifies timeToSecs (currentTime v) t = true ->
      forallb (late (currentTime v)) after = true ->
      caption l v = text t)
  /\ (forallb (late (currentTime v)) l = true -> caption l v = None)
  /\ (timeToSecs "0:05" = Fin 5 ->
      timeToSecs "0:10" = Fin 10 ->
      caption [mkAnnotation "0:05" (Some "five") None None;
               mkAnnotation "0:10" (Some "ten") None None]
              (mkVideo (Fin 7) (videoDuration v)) = Some "five"
      /\ caption [mkAnnotation "0:05" (Some "five") None None;
                  mkAnnotation "0:10" (Some "ten") None None]
                 (mkVideo (Fin 12) (videoDuration v)) = Some "ten").
Proof.
  intros caption late. subst caption late. cbv beta.
  rewrite !caption_of. split; [| split; [| intros H5 H10; split]].
  - intros before t after -> Hq Hlate.
    rewrite rev_app_distr. cbn [List.rev]. rewrite <- app_assoc.
    rewrite find_skip by (rewrite forallb_rev; exact Hlate).
    cbn. rewrite Hq. reflexivity.
  - intros Hlate. rewrite <- forallb_rev in Hlate.
    rewrite <- (app_nil_r (List.rev l)). rewrite find_skip by exact Hlate.
    reflexivity.
  - cbn. unfold qualifies. cbn. rewrite H5, H10. reflexivity.
  - cbn. unfold qualifies. cbn. rewrite H10. reflexivity.
Qed.

Lemma caption_is_last_qualifying_entry_witness :
  parseTimecode "0:05" = Fin 5
  /\ parseTimecode "0:10" = Fin 10
  /\ currentCaption
       (updateTime parseTimecode
          (Some [mkAnnotation "0:05" (Some "five") None None;
                 mkAnnotation "0:10" (Some "ten") None None])
          (Some (mkVideo (Fin 7) (Fin 30)))
          (mkPlayer (Fin 30) (Fin 0) true false None))
     = Some "five"
  /\ currentCaption
       (updateTime parseTimecode
          (Some [mkAnnotation "0:10" (Some "ten") None None;
                 mkAnnotation "0:05" (Some "five") None None])
          (Some (mkVideo (Fin 12) (Fin 30)))
          (mkPlayer (Fin 30) (Fin 0) true false None))
     = Some "five".
Proof.
  split; [reflexivity | split; [reflexivity | split]].
  - exact (proj1 (proj2 (proj2
             (caption_is_last_qualifying_entry parseTimecode []
                (mkVideo (Fin 7) (Fin 30))
                (mkPlayer (Fin 30) (Fin 0) true false None)))
             eq_refl eq_refl)).
  - exact (proj1
             (caption_is_last_qualifying_entry parseTimecode
                [mkAnnotation "0:10" (Some "ten") None None;
                 mkAnnotation "0:05" (Some "five") None None]
                (mkVideo (Fin 12) (Fin 30))
                (mkPlayer (Fin 30) (Fin 0) true false None))
             [mkAnnotation "0:10" (Some "ten") None None]
             (mkAnnotation "0:05" (Some "five") None None) []
             eq_refl eq_refl eq_refl).
Defined.


(** * Further properties of the sources *)

(** ** api.ts: what [uploadFile] never does *)

Section PollingBudget.

Variable resource : string.
Variable statuses : nat -> Settled FileMeta.

Lemma polls_cons_retry (calls : list ApiCall) :
  polls (SetTimeout 5000 :: FilesGet resource :: calls) = S (polls calls).
Proof. reflexivity. Qed.

Lemma waited_cons_retry (calls : list ApiCall) :
  waited (SetTimeout 5000 :: FilesGet resource :: calls) = 5000 + waited calls.
Proof. reflexivity. Qed.

Lemma poll_waited left :
  forall called cur,
    let calls := snd (pollWhileProcessing left resource statuses called cur) in
    waited calls = 5000 * Z.of_nat (polls calls)
    /\ (forall ms, In (SetTimeout ms) calls -> ms = 5000).
Proof.
  induction left as [| left IH]; intros called cur; cbn zeta.
  - cbn. split; [reflexivity | tauto].
  - cbn [pollWhileProcessing].
    destruct (metaState cur); try (cbn; split; [reflexivity | tauto]).
    destruct (statuses called) as [next | e].
    + specialize (IH (S called) next). cbn zeta in IH.
      destruct (pollWhileProcessing left resource statuses (S called) next)
        as [r calls].
      cbn [snd] in IH |- *. destruct IH as [Hw Ht].
      rewrite polls_cons_retry, waited_cons_retry, Hw. split; [lia |].
      intros ms [E | [E | H]]; [congruence | discriminate | auto].
    + cbn [snd]. split; [reflexivity |].
      intros ms [E | [E | []]]; [congruence | discriminate].
Qed.

(** The loop read backwards: a fulfilled outcome comes from a run of
    PROCESSING answers followed by the answer returned. *)
Lemma poll_fulfilled left :
  forall p cur meta calls,
    statuses p = Fulfilled cur ->
    pollWhileProcessing left resource statuses (S p) cur
    = (Fulfilled meta, calls) ->
    exists d,
      (d <= left)%nat
      /\ statuses (p + d) = Fulfilled meta
      /\ (forall k, (p <= k < p + d)%nat -> answersProcessing statuses k = true)
      /\ calls = retryCalls resource d
      /\ (metaState meta = PROCESSING -> d = left).
Proof.
  induction left as [| left IH]; intros p cur meta calls Hcur Hrun.
  - cbn in Hrun. injection Hrun as <- <-. exists O.
    rewrite Nat.add_0_r. repeat split; auto. intros k Hk. lia.
  - cbn [pollWhileProcessing] in Hrun.
    destruct (metaState cur) eqn:Hst.
    1, 3, 4:
      injection Hrun as <- <-; exists O; rewrite Nat.add_0_r;
      (split; [lia | split; [assumption | split; [intros k Hk; lia
        | split; [reflexivity | congruence]]]]).
    destruct (statuses (S p)) as [next | e] eqn:Hnext; [| discriminate].
    destruct (pollWhileProcessing left resource statuses (S (S p)) next)
      as [r calls'] eqn:Hrec.
    injection Hrun as -> <-.
    destruct (IH (S p) next meta calls' Hnext Hrec)
      as (d & Hd & Hend & Hproc & Hcalls & Hstop).
    exists (S d). repeat split.
    + lia.
    + replace (p + S d)%nat with (S p + d)%nat by lia. exact Hend.
    + intros k Hk. destruct (Nat.eq_dec k p) as [-> | Hne].
      * unfold answersProcessing. rewrite Hcur, Hst. reflexivity.
      * apply Hproc. lia.
    + cbn. rewrite Hcalls. reflexivity.
    + intros E. rewrite (Hstop E). reflexivity.
Qed.

(** A status request that is rejected ends the loop with that rejection. *)
Lemma poll_rejected left :
  forall p cur r calls j e,
    pollWhileProcessing left resource statuses (S p) cur = (r, calls) ->
    (j < polls calls)%nat ->
    statuses (S p + j) = Rejected e ->
    r = Rejected e /\ polls calls = S j.
Proof.
  induction left as [| left IH]; intros p cur r calls j e Hrun Hj He.
  - cbn in Hrun. injection Hrun as <- <-. cbn in Hj. lia.
  - cbn [pollWhileProcessing] in Hrun.
    destruct (metaState cur);
      try (injection Hrun as <- <-; cbn in Hj; lia).
    destruct (statuses (S p)) as [next | e0] eqn:Hnext.
    + destruct (pollWhileProcessing left resource statuses (S (S p)) next)
        as [r' calls'] eqn:Hrec.
      injection Hrun as <- <-. rewrite polls_cons_retry in Hj |- *.
      destruct j as [| j].
      * rewrite Nat.add_0_r in He. congruence.
      * replace (S p + S j)%nat with (S (S p) + j)%nat in He by lia.
        destruct (IH (S p) next r' calls' j e Hrec ltac:(lia) He) as [-> ->].
        split; reflexivity.
    + injection Hrun as <- <-.
      change (polls [SetTimeout 5000; FilesGet resource]) with 1%nat in *.
      assert (j = O) by lia. subst j.
      rewrite Nat.add_0_r in He. split; [congruence | reflexivity].
Qed.

End PollingBudget.

(** X1.  Whatever the file service answers, and whether or not its calls
    fail, [uploadFile] asks for the status at most thirteen times, sleeps
    only in steps of 5000 ms, and sleeps 60 s at most in all. *)
Theorem uploadFile_stays_within_budget (f : File) (uploaded : Settled string)
    (statuses : nat -> Settled FileMeta) :
  let trace := snd (uploadFile f uploaded statuses) in
  (polls trace <= 13)%nat
  /\ 0 <= waited trace <= 60000
  /\ (forall ms, In (SetTimeout ms) trace -> ms = 5000).
Proof.
  cbn zeta. unfold uploadFile.
  destruct uploaded as [resource | e];
    [| cbn; repeat split; try lia; intros ms [E | []]; discriminate].
  destruct (statuses O) as [first | e];
    [| cbn; repeat split; try lia; intros ms [E | [E | []]]; discriminate].
  pose proof (poll_bounded resource statuses maxRetries 1%nat first) as Hb.
  pose proof (poll_waited resource statuses maxRetries 1%nat first) as Hw.
  cbn zeta in Hw.
  destruct (pollWhileProcessing maxRetries resource statuses 1 first)
    as [r calls].
  cbn [snd] in Hb, Hw. destruct Hw as [Hw Ht]. unfold maxRetries in Hb.
  assert (Htrace : forall out : Settled UploadedFileInfo,
             let trace := snd (out, FilesUpload f :: FilesGet resource :: calls) in
             (polls trace <= 13)%nat /\ 0 <= waited trace <= 60000
             /\ (forall ms, In (SetTimeout ms) trace -> ms = 5000)).
  { intros out. cbn [snd].
    change (polls (FilesUpload f :: FilesGet resource :: calls))
      with (S (polls calls)).
    change (waited (FilesUpload f :: FilesGet resource :: calls))
      with (waited calls).
    rewrite Hw. repeat split; try lia.
    intros ms [E | [E | H]]; [discriminate | discriminate | auto]. }
  destruct r as [getFile | e]; [destruct (metaState getFile) |];
    apply Htrace.
Qed.

(** X2.  [uploadFile] hands out a media handle only when the file service
    has answered ACTIVE: the handle carries the URI of that answer, which is
    the first answer that is not PROCESSING and one of the first thirteen,
    and its MIME type is the one of the answer, or the type of the file when
    the answer has none. *)
Theorem uploadFile_fulfils_only_on_active (f : File) (uploaded : Settled string)
    (statuses : nat -> Settled FileMeta) (info : UploadedFileInfo) :
  fst (uploadFile f uploaded statuses) = Fulfilled info ->
  exists k meta,
    (k <= maxRetries)%nat
    /\ forallb (answersProcessing statuses) (seq 0 k) = true
    /\ statuses k = Fulfilled meta
    /\ metaState meta = ACTIVE
    /\ uri info = metaUri meta
    /\ mimeType info
       = (if truthy_ostr (metaMimeType meta)
          then default EmptyString (metaMimeType meta) else file_type f)
    /\ polls (snd (uploadFile f uploaded statuses)) = S k.
Proof.
  unfold uploadFile.
  destruct uploaded as [resource | e]; [| discriminate].
  destruct (statuses O) as [first | e] eqn:H0; [| discriminate].
  destruct (pollWhileProcessing maxRetries resource statuses 1 first)
    as [r calls] eqn:Hrun.
  destruct r as [getFile | e]; [| discriminate].
  destruct (poll_fulfilled resource statuses maxRetries O first getFile calls
              H0 Hrun) as (d & Hd & Hend & Hproc & Hcalls & _).
  destruct (metaState getFile) eqn:Hst; try discriminate.
  cbn [fst snd]. intros [= <-].
  exists d, getFile. repeat split; auto.
  - apply forallb_forall. intros k Hk. apply in_seq in Hk. apply Hproc. lia.
  - rewrite Hcalls.
    change (polls (FilesUpload f :: FilesGet resource :: retryCalls resource d))
      with (S (polls (retryCalls resource d))).
    rewrite polls_retryCalls. reflexivity.
Qed.

Lemma uploadFile_fulfils_only_on_active_witness :
  fst (uploadFile (mkFile "clip.mp4" "video/mp4") (Fulfilled "files/x")
         (answers [PROCESSING] ACTIVE))
  = Fulfilled (mkInfo "files/x" "video/mp4")
  /\ exists k meta,
      (k <= maxRetries)%nat
      /\ forallb (answersProcessing (answers [PROCESSING] ACTIVE)) (seq 0 k) = true
      /\ answers [PROCESSING] ACTIVE k = Fulfilled meta
      /\ metaState meta = ACTIVE
      /\ uri (mkInfo "files/x" "video/mp4") = metaUri meta
      /\ mimeType (mkInfo "files/x" "video/mp4")
         = (if truthy_ostr (metaMimeType meta)
            then default EmptyString (metaMimeType meta) else "video/mp4")
      /\ polls (snd (uploadFile (mkFile "clip.mp4" "video/mp4")
                       (Fulfilled "files/x") (answers [PROCESSING] ACTIVE)))
         = S k.
Proof.
  split; [reflexivity |].
  exact (uploadFile_fulfils_only_on_active (mkFile "clip.mp4" "video/mp4")
           (Fulfilled "files/x") (answers [PROCESSING] ACTIVE)
           (mkInfo "files/x" "video/mp4") eq_refl).
Defined.

(** X3.  A failure of the file service is final: when the upload call is
    rejected no status is requested, and when a status request that
    [uploadFile] makes is rejected, [uploadFile] rejects with the same error
    and makes no further request. *)
Theorem uploadFile_rejection_is_final (f : File) (resource : string)
    (statuses : nat -> Settled FileMeta) (k : nat) (e : Error) :
  (k < polls (snd (uploadFile f (Fulfilled resource) statuses)))%nat ->
  statuses k = Rejected e ->
  fst (uploadFile f (Fulfilled resource) statuses) = Rejected e
  /\ polls (snd (uploadFile f (Fulfilled resource) statuses)) = S k
  /\ forall e', uploadFile f (Rejected e') statuses
                = (Rejected e', [FilesUpload f]).
Proof.
  intros Hk He.
  assert (H : fst (uploadFile f (Fulfilled resource) statuses) = Rejected e
              /\ polls (snd (uploadFile f (Fulfilled resource) statuses)) = S k).
  { revert Hk. unfold uploadFile.
    destruct (statuses O) as [first | e0] eqn:H0.
    - destruct (pollWhileProcessing maxRetries resource statuses 1 first)
        as [r calls] eqn:Hrun.
      intros Hk.
      assert (Hp : (k < S (polls calls))%nat).
      { destruct r as [getFile | e1]; [destruct (metaState getFile) |];
          exact Hk. }
      destruct k as [| j]; [congruence |].
      destruct (poll_rejected resource statuses maxRetries O first r calls j e
                  Hrun ltac:(lia) He) as [-> Hpolls].
      cbn [fst snd].
      change (polls (FilesUpload f :: FilesGet resource :: calls))
        with (S (polls calls)).
      rewrite Hpolls. split; reflexivity.
    - intros Hk. cbn in Hk. assert (k = O) by lia. subst k.
      rewrite H0 in He. injection He as ->. split; reflexivity. }
  destruct H as [H1 H2]. split; [exact H1 | split; [exact H2 | reflexivity]].
Qed.

Lemma uploadFile_rejection_is_final_witness :
  let statuses := fun k : nat =>
    match k with
    | 2%nat => Rejected (TransportError "fetch failed")
    | _ => Fulfilled (mkMeta PROCESSING "files/x" None)
    end in
  (2 < polls (snd (uploadFile (mkFile "clip.mp4" "video/mp4")
                     (Fulfilled "files/x") statuses)))%nat
  /\ fst (uploadFile (mkFile "clip.mp4" "video/mp4") (Fulfilled "files/x")
            statuses)
     = Rejected (TransportError "fetch failed")
  /\ polls (snd (uploadFile (mkFile "clip.mp4" "video/mp4")
                   (Fulfilled "files/x") statuses)) = 3%nat.
Proof.
  cbv zeta. split; [vm_compute; lia |].
  destruct (uploadFile_rejection_is_final (mkFile "clip.mp4" "video/mp4")
              "files/x"
              (fun k : nat =>
                 match k with
                 | 2%nat => Rejected (TransportError "fetch failed")
                 | _ => Fulfilled (mkMeta PROCESSING "files/x" None)
                 end)
              2 (TransportError "fetch failed")
              ltac:(vm_compute; lia) eq_refl) as (H1 & H2 & _).
  split; [exact H1 | exact H2].
Defined.

(** ** VideoPlayer.tsx: display form, markers, scrubber *)

(** X4.  Two non-negative times have the same display form exactly when
    they lie in the same whole second. *)
Theorem formatTime_same_display_same_second (t1 t2 : Q) :
  (0 <= t1)%Q -> (0 <= t2)%Q ->
  (formatTime (Fin t1) = formatTime (Fin t2) <-> Qfloor t1 = Qfloor t2).
Proof.
  intros H1 H2. split.
  - intros E. apply (f_equal parseTimecode) in E.
    rewrite (formatTime_parses_back t1 H1), (formatTime_parses_back t2 H2) in E.
    injection E as E. exact E.
  - intros E. rewrite (formatTime_shape t1 H1), (formatTime_shape t2 H2), E.
    reflexivity.
Qed.

Lemma formatTime_same_display_same_second_witness :
  (0 <= 125)%Q /\ (0 <= 1259 # 10)%Q
  /\ (formatTime (Fin 125) = formatTime (Fin (1259 # 10))
      <-> Qfloor 125 = Qfloor (1259 # 10)).
Proof.
  split; [vm_compute; discriminate | split; [vm_compute; discriminate |]].
  apply formatTime_same_display_same_second; vm_compute; discriminate.
Defined.

Section MarkerBounds.

Local Open Scope Q_scope.

Lemma Qle_bool_false (x y : Q) : Qle_bool x y = false <-> y < x.
Proof.
  split.
  - intros H. apply Qnot_le_lt. intros Hle.
    apply Qle_bool_iff in Hle. congruence.
  - intros H. destruct (Qle_bool x y) eqn:E; [| reflexivity].
    apply Qle_bool_iff in E. apply Qlt_not_le in H. contradiction.
Qed.

Lemma Qeq_bool_pos (d : Q) : 0 < d -> Qeq_bool d 0 = false.
Proof.
  intros H. destruct (Qeq_bool d 0) eqn:E; [| reflexivity].
  apply Qeq_bool_iff in E. rewrite E in H. discriminate.
Qed.

Lemma pct_nonneg (s d : Q) : 0 < d -> (0 <= s / d * 100 <-> 0 <= s).
Proof.
  intros Hd.
  assert (Hs : s == s / d * d) by (field; intros E; rewrite E in Hd; discriminate).
  set (q := s / d) in *. clearbody q. split; intros H.
  - rewrite Hs. apply Qmult_le_0_compat; [lra | lra].
  - assert (0 <= q); [| lra].
    destruct (Qlt_le_dec q 0) as [Hq | Hq]; [| exact Hq].
    assert (q * d < 0 * d) by (apply Qmult_lt_compat_r; assumption).
    lra.
Qed.

Lemma pct_at_most_100 (s d : Q) : 0 < d -> (s / d * 100 <= 100 <-> s <= d).
Proof.
  intros Hd.
  assert (Hs : s == s / d * d) by (field; intros E; rewrite E in Hd; discriminate).
  set (q := s / d) in *. clearbody q. split; intros H.
  - assert (Hq : q <= 1) by lra.
    assert (q * d <= 1 * d) by (apply Qmult_le_compat_r; lra).
    lra.
  - assert (q <= 1); [| lra].
    destruct (Qlt_le_dec 1 q) as [Hq | Hq]; [| exact Hq].
    assert (1 * d < q * d) by (apply Qmult_lt_compat_r; assumption).
    lra.
Qed.

Lemma lt_fin (x y : Q) : lt (Fin x) (Fin y) = negb (Qle_bool y x).
Proof. reflexivity. Qed.

Lemma gt_fin (x y : Q) : gt (Fin x) (Fin y) = negb (Qle_bool x y).
Proof. reflexivity. Qed.

Lemma div_fin (x d : Q) : 0 < d -> div (Fin x) (Fin d) = Fin (x / d).
Proof. intros H. unfold div. rewrite (Qeq_bool_pos d H). reflexivity. Qed.

Lemma markerPct_fin (d s : Q) :
  0 < d -> markerPct (Fin d) (Fin s) = Fin (s / d * 100).
Proof.
  intros H. unfold markerPct. rewrite gt_fin.
  replace (Qle_bool d 0) with false
    by (symmetry; apply Qle_bool_false; exact H).
  cbn [negb]. rewrite (div_fin s d H). reflexivity.
Qed.

End MarkerBounds.

(** X5.  With a known positive duration, the marker of an entry whose time
    is a number is rendered exactly when that time lies between 0 and the
    duration, both included, and it then stands at the time's percentage of
    the duration. *)
Theorem marker_shown_iff_within_duration (timeToSecs : string -> num)
    (d s : Q) (t : Annotation) :
  (0 < d)%Q ->
  timeToSecs (time t) = Fin s ->
  (is_Some (marker timeToSecs (Fin d) t) <-> (0 <= s)%Q /\ (s <= d)%Q)
  /\ (forall m, marker timeToSecs (Fin d) t = Some m ->
                markerLeft m = Fin (s / d * 100) /\ markerSecs m = Fin s).
Proof.
  intros Hd Hs. unfold marker. rewrite Hs, (markerPct_fin d s Hd).
  rewrite lt_fin, gt_fin.
  destruct (Qle_bool 0 (s / d * 100)) eqn:E0;
    destruct (Qle_bool (s / d * 100) 100) eqn:E1; cbn [negb orb].
  - apply Qle_bool_iff in E0, E1.
    apply (pct_nonneg s d Hd) in E0. apply (pct_at_most_100 s d Hd) in E1.
    split; [split; [intros _; split; assumption | intros _; eexists; reflexivity] |].
    intros m [= <-]. split; reflexivity.
  - apply Qle_bool_false in E1. split; [| discriminate].
    split; [intros [m Hm]; discriminate |].
    intros [_ H]. apply (pct_at_most_100 s d Hd) in H.
    apply Qlt_not_le in E1. contradiction.
  - apply Qle_bool_false in E0. split; [| discriminate].
    split; [intros [m Hm]; discriminate |].
    intros [H _]. apply (pct_nonneg s d Hd) in H.
    apply Qlt_not_le in E0. contradiction.
  - apply Qle_bool_false in E0. split; [| discriminate].
    split; [intros [m Hm]; discriminate |].
    intros [H _]. apply (pct_nonneg s d Hd) in H.
    apply Qlt_not_le in E0. contradiction.
Qed.

Lemma marker_shown_iff_within_duration_witness :
  (0 < 30)%Q
  /\ (is_Some (marker (fun _ => Fin 45) (Fin 30)
                 (mkAnnotation "0:45" (Some "late") None None))
      <-> (0 <= 45)%Q /\ (45 <= 30)%Q).
Proof.
  split; [reflexivity |].
  exact (proj1 (marker_shown_iff_within_duration (fun _ => Fin 45) 30 45
                  (mkAnnotation "0:45" (Some "late") None None)
                  eq_refl eq_refl)).
Defined.

(** X6.  While the duration is not a positive number (it is 0 until the
    metadata of the video has loaded) every marker is rendered, at 0%; and
    an entry whose time does not parse to a number is rendered whatever the
    duration. *)
Theorem marker_without_duration_or_time (timeToSecs : string -> num)
    (d : num) (t : Annotation) :
  (gt d (Fin 0) = false ->
   exists m, marker timeToSecs d t = Some m /\ markerLeft m = Fin 0)
  /\ (timeToSecs (time t) = NaN -> is_Some (marker timeToSecs d t)).
Proof.
  split.
  - intros H. unfold marker, markerPct. rewrite H. cbn. eauto.
  - intros H. unfold marker, markerPct. rewrite H.
    destruct (gt d (Fin 0)); [| cbn; eauto].
    destruct d as [| [|] | q]; cbn; eauto.
Qed.

(** X7.  A time update during a scrub session leaves the scrubber position
    alone; outside one it sets a position that is never NaN, the played
    fraction when time and duration are numbers and the duration is
    positive.  The duration and the playing flag are not touched. *)
Theorem updateTime_scrubber (timeToSecs : string -> num)
    (l : option (list Annotation)) (v : Video) (p : Player) :
  let p' := updateTime timeToSecs l (Some v) p in
  (isScrubbing p = true -> scrubberTime p' = scrubberTime p)
  /\ (isScrubbing p = false ->
      scrubberTime p' <> NaN
      /\ forall c d, currentTime v = Fin c -> videoDuration v = Fin d ->
                     (0 < d)%Q ->
                     exists q, scrubberTime p' = Fin q /\ (q == c / d)%Q)
  /\ duration p' = duration p
  /\ isPlaying p' = isPlaying p
  /\ isScrubbing p' = isScrubbing p.
Proof.
  cbn zeta. unfold updateTime, timecodeListReversed.
  destruct l as [l |]; destruct (isScrubbing p) eqn:Hs; cbn;
    (split; [intros; try reflexivity; discriminate |]);
    (split; [| repeat split; try assumption; reflexivity]);
    intros; try discriminate;
    (split;
     [ unfold or_num; destruct (truthy_num (div (currentTime v) (videoDuration v))) eqn:E;
       [intros N; rewrite N in E; discriminate | discriminate]
     | intros c d Hc Hd Hpos; rewrite Hc, Hd; cbn [div];
       rewrite (Qeq_bool_pos d Hpos); unfold or_num; cbn [truthy_num];
       destruct (Qeq_bool (c / d) 0) eqn:E; cbn [negb];
       [ exists 0%Q; split; [reflexivity |];
         apply Qeq_bool_iff in E; symmetry; exact E
       | exists (c / d)%Q; split; reflexivity ] ]).
Qed.

(** X8.  A time update sets the caption only when there is an annotation
    list and a video element.  So after a drop that carries a file, which
    removes the list, the caption of the previous analysis stays until a
    new list arrives. *)
Theorem caption_survives_without_list (timeToSecs : string -> num)
    (f : File) (objectUrl : string) (a : App) (videoRef : option Video)
    (l : option (list Annotation)) (p : Player) :
  currentCaption
    (updateTime timeToSecs
       (timecodeList (fst (fst (uploadVideo (Some f) objectUrl a))))
       videoRef p)
  = currentCaption p
  /\ currentCaption (updateTime timeToSecs l None p) = currentCaption p
  /\ currentCaption (updateTime timeToSecs None videoRef p) = currentCaption p.
Proof.
  assert (Hnone : forall r, currentCaption (updateTime timeToSecs None r p)
                            = currentCaption p).
  { intros [v |]; unfold updateTime; cbn; [| reflexivity].
    destruct (isScrubbing p); reflexivity. }
  split; [| split; [| apply Hnone]].
  - unfold uploadVideo.
    destruct (negb (startsWith (file_type f) "video/")); cbn; apply Hnone.
  - unfold updateTime, timecodeListReversed. destruct l; reflexivity.
Qed.

Lemma updateTime_while_scrubbing (timeToSecs : string -> num)
    (l : option (list Annotation)) (videoRef : option Video) (p : Player) :
  isScrubbing p = true ->
  scrubberTime (updateTime timeToSecs l videoRef p) = scrubberTime p
  /\ isScrubbing (updateTime timeToSecs l videoRef p) = true.
Proof.
  intros H. unfold updateTime, timecodeListReversed.
  destruct videoRef as [v |], l as [l |]; cbn; rewrite H; cbn;
    split; first [reflexivity | exact H].
Qed.

(** X9.  After a pointer-down on the scrubber, the value the range input
    delivers stays the scrubber position however many time updates arrive
    before the pointer-up, whatever they report; after the pointer-up the
    next time update takes the position from the video element again. *)
Theorem scrub_session_holds_position (timeToSecs : string -> num)
    (x : num) (videoRef : option Video) (p : Player)
    (updates : list (option (list Annotation) * option Video)) :
  let dragged := fst (onScrubberChange x videoRef (onPointerDown p)) in
  let during :=
    fold_left (fun q u => updateTime timeToSecs (fst u) (snd u) q)
              updates dragged in
  scrubberTime during = x
  /\ isScrubbing during = true
  /\ forall l v,
       scrubberTime (updateTime timeToSecs l (Some v) (onPointerUp during))
       = or_num (div (currentTime v) (videoDuration v)) (Fin 0).
Proof.
  cbn zeta.
  assert (H : forall q, scrubberTime q = x -> isScrubbing q = true ->
              let r := fold_left (fun q u => updateTime timeToSecs (fst u) (snd u) q)
                                 updates q in
              scrubberTime r = x /\ isScrubbing r = true).
  { induction updates as [| u updates IH]; intros q Hx Hs; cbn zeta;
      [split; assumption |].
    cbn [fold_left].
    destruct (updateTime_while_scrubbing timeToSecs (fst u) (snd u) q Hs)
      as [E1 E2].
    apply IH; [rewrite E1; exact Hx | exact E2]. }
  destruct (H (fst (onScrubberChange x videoRef (onPointerDown p)))
              eq_refl eq_refl) as [Hx Hs].
  split; [exact Hx | split; [exact Hs |]].
  intros l v. unfold updateTime, timecodeListReversed, onPointerUp.
  destruct l; reflexivity.
Qed.

(** ** The response handler and the text cleaning *)

Lemma fnMap_handlers (capability : string) (handler : Payload -> App -> App) :
  fnMap !! capability = Some handler ->
  handler = setTimecodes \/ handler = setTimecodesNumeric.
Proof.
  unfold fnMap. rewrite !lookup_insert_Some, lookup_empty.
  intros [[_ <-] | [_ [[_ <-] | [_ [[_ <-] | [_ H]]]]]]; auto.
  discriminate.
Qed.

Lemma setIsLoading_setTimecodeList (a : App) (l : option (list Annotation)) :
  timecodeList (setIsLoading false (setTimecodeList l a)) = l.
Proof. reflexivity. Qed.

Lemma settled_shape (scrollRefCurrent : bool)
    (r : Settled Response) (a : App) :
  let '(a', eff) := onModeSelect_settled scrollRefCurrent r a in
  a' = setIsLoading false (setTimecodeList (timecodeList a') a)
  /\ forallb (fun e => negb (isGenerateContent e || isUploadFile e)) eff = true
  /\ (forall resp, r = Fulfilled resp -> firstCall resp = None ->
                   timecodeList a' = timecodeList a).
Proof.
  unfold onModeSelect_settled.
  destruct r as [resp | e].
  - unfold dispatch.
    destruct (firstCall resp) as [call |] eqn:Hc.
    + unfold fnMap_get.
      destruct (fnMap !! name call) as [handler |] eqn:Hh.
      * destruct (fnMap_handlers _ _ Hh) as [-> | ->];
          destruct a, scrollRefCurrent; cbn;
          (split; [reflexivity | split; [reflexivity |]]);
          intros resp' [= <-]; congruence.
      * destruct (Object_prototype !! name call) as [[|] |];
          destruct a, scrollRefCurrent; cbn;
          (split; [reflexivity | split; [reflexivity |]]);
          intros resp' [= <-]; congruence.
    + destruct (truthy_ostr (responseText resp));
        destruct a, scrollRefCurrent; cbn;
        (split; [reflexivity | split; [reflexivity |]]); reflexivity.
  - destruct a, scrollRefCurrent; cbn;
      (split; [reflexivity | split; [reflexivity |]]); discriminate.
Qed.

(** X10.  Whatever the generation request settles with (any response, any
    capability name, or a failure), the handler changes nothing in the
    state but the annotation list and the loading flag, which it clears; it
    calls neither the generation nor the upload collaborator; and a
    response without a function call leaves the annotation list as it is. *)
Theorem response_changes_only_the_list (scrollRefCurrent : bool)
    (r : Settled Response) (a : App) :
  let '(a', eff) := onModeSelect_settled scrollRefCurrent r a in
  a' = setIsLoading false (setTimecodeList (timecodeList a') a)
  /\ forallb (fun e => negb (isGenerateContent e || isUploadFile e)) eff = true
  /\ (forall resp, r = Fulfilled resp -> firstCall resp = None ->
                   timecodeList a' = timecodeList a).
Proof. exact (settled_shape scrollRefCurrent r a). Qed.

Lemma unescapeQuotes_length (s : string) :
  (String.length (unescapeQuotes s) <= String.length s)%nat.
Proof.
  remember (String.length s) as n eqn:Hn.
  revert s Hn. induction n as [n IH] using lt_wf_ind. intros s Hn.
  destruct s as [| c [| c' r]]; [subst; cbn; lia | subst; cbn; lia |].
  rewrite unescapeQuotes_cons.
  destruct (Ascii.eqb c "\" && Ascii.eqb c' "'").
  - pose proof (IH (String.length r) ltac:(subst; cbn; lia) r eq_refl).
    subst. cbn [String.length] in *. lia.
  - pose proof (IH (String.length (String c' r)) ltac:(subst; cbn; lia)
                  (String c' r) eq_refl).
    subst. cbn [String.length] in *. lia.
Qed.

(** X12.  Cleaning never lengthens a text, and a text in which no backslash
    occurs is stored as it is. *)
Theorem unescapeQuotes_leaves_plain_text (s : string) :
  (String.length (unescapeQuotes s) <= String.length s)%nat
  /\ ((forall c, In c (list_ascii_of_string s) -> c <> "\"%char) ->
      unescapeQuotes s = s).
Proof.
  split; [apply unescapeQuotes_length |].
  induction s as [| c rest IH]; intros H; [reflexivity |].
  destruct rest as [| c' r]; [reflexivity |].
  rewrite unescapeQuotes_cons.
  assert (Hc : Ascii.eqb c "\" = false).
  { apply Ascii.eqb_neq. apply H. left. reflexivity. }
  rewrite Hc. cbn [andb]. f_equal. apply IH.
  intros x Hx. apply H. right. exact Hx.
Qed.

(** ** The controls and the event loop *)

Ltac case_ifs :=
  repeat match goal with
         | |- context [if ?b then _ else _] => destruct b eqn:?
         end.

(** What a user event can do to the state. *)
Lemma onUiEvent_spec (modes : ModeTable) (e : UiEvent) (a : App) :
  let '(a', eff) := onUiEvent modes e a in
  file a' = file a /\ vidUrl a' = vidUrl a
  /\ timecodeList a' = timecodeList a
  /\ isLoadingVideo a' = isLoadingVideo a
  /\ ((existsb isGenerateContent eff = false
       /\ isLoading a' = isLoading a /\ activeMode a' = activeMode a
       /\ chartLabel a' = chartLabel a)
      \/ (existsb isGenerateContent eff = true
          /\ isLoading a' = true
          /\ exists f prompt,
               file a = Some f
               /\ (eff = [GenerateContent prompt declaredFunctions f]
                   \/ eff = [PreventDefault;
                             GenerateContent prompt declaredFunctions f]))).
Proof.
  unfold onUiEvent.
  destruct (negb (selectorRendered a)); [cbn; intuition |].
  destruct e;
    try (case_ifs; cbn; intuition; fail).
  - destruct (hasSubMode a && String.eqb key "Enter" && negb shiftKey);
      [| cbn; intuition].
    unfold onModeSelect. destruct (file a) as [f |] eqn:Hf; cbn.
    + repeat split; try assumption. right. repeat split. eauto.
    + repeat split; try assumption. left. repeat split.
  - destruct (generateDisabled a); [cbn; intuition |].
    unfold onModeSelect. destruct (file a) as [f |] eqn:Hf; cbn.
    + repeat split; try assumption. right. repeat split. eauto.
    + repeat split; try assumption. left. repeat split.
Qed.

(** X13.  Without a media handle no user event reaches the generation
    collaborator: the Generate button is disabled, and the Enter key runs
    into the guard of [onModeSelect], which raises the error flag and leaves
    the loading flag alone. *)
Theorem no_media_no_request (modes : ModeTable) (e : UiEvent) (a : App) :
  file a = None ->
  existsb isGenerateContent (snd (onUiEvent modes e a)) = false
  /\ isLoading (fst (onUiEvent modes e a)) = isLoading a
  /\ onUiEvent modes ClickGenerate a = (a, [])
  /\ (selectorRendered a = true -> hasSubMode a = true ->
      onUiEvent modes (KeyDownPrompt "Enter" false) a
      = (setVideoError true a, [PreventDefault])).
Proof.
  intros Hf.
  pose proof (onUiEvent_spec modes e a) as H.
  destruct (onUiEvent modes e a) as [a' eff]. cbn [fst snd].
  destruct H as (_ & _ & _ & _ & [(Hno & Hl & _) | (_ & _ & f & prompt & Hsome & _)]);
    [| congruence].
  split; [exact Hno | split; [exact Hl | split]].
  - unfold onUiEvent. destruct (negb (selectorRendered a)); [reflexivity |].
    unfold generateDisabled. rewrite Hf.
    destruct (hasSubMode a), (isLoading a); reflexivity.
  - intros Hr Hs. unfold onUiEvent, onModeSelect. rewrite Hr, Hs, Hf.
    reflexivity.
Qed.

Lemma no_media_no_request_witness :
  file (initialApp sampleModes) = None
  /\ existsb isGenerateContent
       (snd (onUiEvent sampleModes (KeyDownPrompt "Enter" false)
               (setSelectedMode "Custom"
                  (setVidUrl (Some "blob:clip") (initialApp sampleModes)))))
     = false.
Proof.
  split; [reflexivity |].
  exact (proj1 (no_media_no_request sampleModes (KeyDownPrompt "Enter" false)
                  (setSelectedMode "Custom"
                     (setVidUrl (Some "blob:clip") (initialApp sampleModes)))
                  eq_refl)).
Defined.

(** X14.  A user event that starts a request turns the output section into
    the loading notice; every other user event (choosing a mode, typing a
    prompt, collapsing the sidebar, a disabled or guarded Generate) leaves
    what the output section shows as it is. *)
Theorem output_follows_requests_only (modes : ModeTable)
    (isList : string -> bool) (e : UiEvent) (a : App) :
  let '(a', eff) := onUiEvent modes e a in
  output isList a'
  = if existsb isGenerateContent eff then LoadingView else output isList a.
Proof.
  pose proof (onUiEvent_spec modes e a) as H.
  destruct (onUiEvent modes e a) as [a' eff].
  destruct H as (Hf & Hu & Ht & _ & [(-> & Hl & Hm & Hc) | (-> & Hl & _)]).
  - unfold output. rewrite Hf, Hu, Ht, Hl, Hm, Hc. reflexivity.
  - unfold output. rewrite Hl. reflexivity.
Qed.

Lemma app_not_nil {A : Type} (l : list A) (x : A) : l ++ [x] <> [].
Proof. destruct l; discriminate. Qed.

Lemma exec_flagsBacked (modes : ModeTable) (ev : Event) (w : World) :
  flagsBacked w -> flagsBacked (exec modes ev w).
Proof.
  intros [Hl Hv]. destruct ev as [e | d u | s r | n r]; cbn [exec].
  - pose proof (onUiEvent_spec modes e (app w)) as H.
    destruct (onUiEvent modes e (app w)) as [a' eff].
    destruct H as (_ & _ & _ & Hlv & [(-> & Hload & _) | (-> & _)]);
      unfold flagsBacked; cbn.
    + rewrite Hload, Hlv. split; assumption.
    + rewrite Hlv. split; [intros _; apply app_not_nil | assumption].
  - unfold uploadVideo.
    destruct d as [f |]; [destruct (negb (startsWith (file_type f) "video/")) |];
      unfold flagsBacked; cbn;
      (split; [assumption |]); try discriminate.
    intros _. apply app_not_nil.
  - destruct (findUpload s w); [| split; assumption].
    destruct r; unfold flagsBacked; cbn; (split; [assumption | discriminate]).
  - destruct (isPendingRequest n w); [| split; assumption].
    pose proof (settled_shape true r (app w)) as H.
    destruct (onModeSelect_settled true r (app w)) as [a' eff].
    destruct H as (Ha & _). unfold flagsBacked; cbn.
    rewrite Ha. cbn. split; [discriminate | assumption].
Qed.

(** X15.  In every state the event loop reaches, the loading flag is up
    only while a generation request is pending, and the video-loading flag
    only while an upload is pending: neither can stay up once its work has
    settled. *)
Theorem loading_flags_mean_pending_work (modes : ModeTable)
    (evs : list Event) :
  let w := run modes evs (initialWorld modes) in
  (isLoading (app w) = true -> requests w <> [])
  /\ (isLoadingVideo (app w) = true -> uploads w <> []).
Proof.
  cbn zeta.
  assert (H : forall w, flagsBacked w -> flagsBacked (run modes evs w)).
  { induction evs as [| ev evs IH]; intros w Hw; [exact Hw |].
    cbn. apply IH. apply exec_flagsBacked. exact Hw. }
  apply H. split; discriminate.
Qed.

Lemma run_snoc (modes : ModeTable) (evs : list Event) (ev : Event) (w : World) :
  run modes (evs ++ [ev]) w = exec modes ev (run modes evs w).
Proof. unfold run. rewrite fold_left_app. reflexivity. Qed.

Lemma exec_provenance (modes : ModeTable) (evs : list Event) (ev : Event)
    (w : World) :
  handlesUploaded evs w -> handlesUploaded (evs ++ [ev]) (exec modes ev w).
Proof.
  intros [Hfile Heff].
  assert (Hmono : forall f, (exists s, In (UploadSettles s (Fulfilled f)) evs) ->
                            exists s, In (UploadSettles s (Fulfilled f)) (evs ++ [ev])).
  { intros f [s Hs]. exists s. apply in_or_app. left. exact Hs. }
  destruct ev as [e | d u | s r | n r]; cbn [exec].
  - pose proof (onUiEvent_spec modes e (app w)) as H.
    destruct (onUiEvent modes e (app w)) as [a' eff].
    destruct H as (Hf & _ & _ & _ & [(Hno & _) | (Hyes & _ & f & prompt & Hsome & Heq)]).
    + rewrite Hno. split; cbn.
      * intros f0 H0. apply Hmono, Hfile. congruence.
      * intros p0 d0 f0 Hin. apply in_app_or in Hin as [Hin | Hin];
          [apply Hmono; eauto |].
        exfalso.
        assert (Hx : existsb isGenerateContent eff = true)
          by (apply existsb_exists; eexists; split; [exact Hin | reflexivity]).
        congruence.
    + rewrite Hyes. split; cbn.
      * intros f0 H0. apply Hmono, Hfile. congruence.
      * intros p0 d0 f0 Hin. apply in_app_or in Hin as [Hin | Hin];
          [apply Hmono; eauto |].
        apply Hmono, Hfile.
        destruct Heq as [-> | ->]; cbn in Hin;
          [destruct Hin as [[= _ _ <-] | []]
          | destruct Hin as [[=] | [[= _ _ <-] | []]]]; exact Hsome.
  - unfold uploadVideo.
    destruct d as [f |]; [destruct (negb (startsWith (file_type f) "video/")) |];
      split; cbn; try discriminate;
      try (intros f0 H0; apply Hmono, Hfile; exact H0);
      intros p0 d0 f0 Hin; apply in_app_or in Hin as [Hin | Hin];
      try (apply Hmono; eauto; fail);
      cbn in Hin; repeat (destruct Hin as [Hin | Hin]; [discriminate |]);
      destruct Hin.
  - destruct (findUpload s w) as [p |].
    + destruct r as [info | e]; split; cbn; try discriminate.
      * intros f0 [= <-]. exists s. apply in_or_app. right. left. reflexivity.
      * intros p0 d0 f0 Hin. rewrite app_nil_r in Hin. apply Hmono; eauto.
      * intros p0 d0 f0 Hin. apply in_app_or in Hin as [Hin | Hin];
          [apply Hmono; eauto |].
        cbn in Hin. repeat (destruct Hin as [Hin | Hin]; [discriminate |]).
        destruct Hin.
    + split; [intros f0 H0; apply Hmono, Hfile; exact H0
             | intros p0 d0 f0 Hin; apply Hmono; eauto].
  - destruct (isPendingRequest n w).
    + pose proof (settled_shape true r (app w)) as H.
      destruct (onModeSelect_settled true r (app w)) as [a' eff].
      destruct H as (Ha & Hquiet & _). split; cbn.
      * intros f0 H0. apply Hmono, Hfile. rewrite Ha in H0. exact H0.
      * intros p0 d0 f0 Hin. apply in_app_or in Hin as [Hin | Hin];
          [apply Hmono; eauto |].
        exfalso. rewrite forallb_forall in Hquiet.
        specialize (Hquiet _ Hin). discriminate.
    + split; [intros f0 H0; apply Hmono, Hfile; exact H0
             | intros p0 d0 f0 Hin; apply Hmono; eauto].
Qed.

(** X17.  Every generation request the event loop ever issues carries a
    media handle with which an upload was fulfilled earlier in the same
    run. *)
Theorem analysed_media_was_uploaded (modes : ModeTable) (evs : list Event)
    (prompt : string) (declarations : list string) (f : UploadedFileInfo) :
  In (GenerateContent prompt declarations f)
     (effects (run modes evs (initialWorld modes))) ->
  exists s, In (UploadSettles s (Fulfilled f)) evs.
Proof.
  assert (H : handlesUploaded evs (run modes evs (initialWorld modes))).
  { induction evs as [| ev evs IH] using rev_ind.
    - split; [discriminate | intros p d f0 []].
    - rewrite run_snoc. apply exec_provenance. exact IH. }
  intros Hin. destruct H as [_ H]. eapply H. exact Hin.
Qed.

Lemma analysed_media_was_uploaded_witness :
  let evs := [FileDrop (Some (mkFile "clip.mp4" "video/mp4")) "blob:clip";
              UploadSettles 0 (Fulfilled (mkInfo "files/x" "video/mp4"));
              Ui ClickGenerate] in
  In (GenerateContent "Prompt for A/V captions" declaredFunctions
        (mkInfo "files/x" "video/mp4"))
     (effects (run sampleModes evs (initialWorld sampleModes)))
  /\ exists s, In (UploadSettles s (Fulfilled (mkInfo "files/x" "video/mp4"))) evs.
Proof.
  cbv zeta.
  assert (Hin : In (GenerateContent "Prompt for A/V captions" declaredFunctions
                      (mkInfo "files/x" "video/mp4"))
                   (effects
                      (run sampleModes
                         [FileDrop (Some (mkFile "clip.mp4" "video/mp4")) "blob:clip";
                          UploadSettles 0 (Fulfilled (mkInfo "files/x" "video/mp4"));
                          Ui ClickGenerate]
                         (initialWorld sampleModes)))).
  { vm_compute. do 3 right. left. reflexivity. }
  split; [exact Hin |].
  exact (analysed_media_was_uploaded sampleModes _ _ _ _ Hin).
Defined.

Lemma button_sessions_are_single_flight_witness :
  forallb (fun ev => negb (isKeyDown ev)) buttonSession = true
  /\ singleFlight (run sampleModes buttonSession (initialWorld sampleModes))
  /\ requests (run sampleModes buttonSession (initialWorld sampleModes))
     = [0%nat].
Proof.
  split; [reflexivity | split; [| reflexivity]].
  exact (button_sessions_are_single_flight sampleModes buttonSession eq_refl).
Defined.

Lemma onUiEvent_no_revoke (modes : ModeTable) (e : UiEvent) (a : App) :
  existsb isRevoke (snd (onUiEvent modes e a)) = false.
Proof.
  unfold onUiEvent.
  destruct (negb (selectorRendered a)); [reflexivity |].
  destruct e; try (case_ifs; reflexivity).
  - destruct (hasSubMode a && String.eqb key "Enter" && negb shiftKey);
      [| reflexivity].
    unfold onModeSelect. destruct (file a); reflexivity.
  - destruct (generateDisabled a); [reflexivity |].
    unfold onModeSelect. destruct (file a); reflexivity.
Qed.

Lemma settled_no_revoke (scrollRefCurrent : bool) (r : Settled Response)
    (a : App) :
  existsb isRevoke (snd (onModeSelect_settled scrollRefCurrent r a)) = false.
Proof.
  unfold onModeSelect_settled, dispatch, fnMap_get.
  destruct r as [resp | e]; [| destruct scrollRefCurrent; reflexivity].
  destruct (firstCall resp) as [call |].
  - destruct (fnMap !! name call);
      [| destruct (Object_prototype !! name call) as [[|] |]];
      destruct scrollRefCurrent; reflexivity.
  - destruct (truthy_ostr (responseText resp)), scrollRefCurrent; reflexivity.
Qed.

Lemma not_revoked (eff : list Effect) (u : string) :
  existsb isRevoke eff = false -> ~ In (RevokeObjectURL u) eff.
Proof.
  intros H Hin.
  assert (existsb isRevoke eff = true)
    by (apply existsb_exists; eexists; split; [exact Hin | reflexivity]).
  congruence.
Qed.

Lemma findUpload_In (s : nat) (w : World) (p : PendingUpload) :
  findUpload s w = Some p -> In p (uploads w).
Proof. unfold findUpload. intros H. apply find_some in H. tauto. Qed.

Lemma exec_revokes (modes : ModeTable) (evs : list Event) (ev : Event)
    (w : World) :
  revokesAccounted evs w -> revokesAccounted (evs ++ [ev]) (exec modes ev w).
Proof.
  intros [Hup Hrev].
  assert (Hd : forall u, (exists f, In (FileDrop (Some f) u) evs) ->
                         exists f, In (FileDrop (Some f) u) (evs ++ [ev])).
  { intros u [f Hf]. exists f. apply in_or_app. left. exact Hf. }
  assert (Hr : forall u, In (RevokeObjectURL u) (effects w) ->
                 (exists f, In (FileDrop (Some f) u) (evs ++ [ev]))
                 /\ exists s e, In (UploadSettles s (Rejected e)) (evs ++ [ev])).
  { intros u Hu. destruct (Hrev u Hu) as [H1 (s & e & H2)].
    split; [apply Hd; exact H1 |].
    exists s, e. apply in_or_app. left. exact H2. }
  destruct ev as [e | d u | s r | n r]; cbn [exec].
  - pose proof (onUiEvent_no_revoke modes e (app w)) as Hno.
    destruct (onUiEvent modes e (app w)) as [a' eff]. cbn [snd] in Hno.
    destruct (existsb isGenerateContent eff); split; cbn;
      try (intros p Hp; apply Hd, Hup; exact Hp);
      intros u0 Hin; apply in_app_or in Hin as [Hin | Hin];
      try (apply Hr; exact Hin);
      exfalso; exact (not_revoked eff u0 Hno Hin).
  - unfold uploadVideo.
    destruct d as [f |]; [destruct (negb (startsWith (file_type f) "video/")) |];
      split; cbn;
      try (intros p Hp; apply Hd, Hup; exact Hp);
      try (intros u0 Hin; apply in_app_or in Hin as [Hin | Hin];
           [apply Hr; exact Hin
           | cbn in Hin;
             repeat (destruct Hin as [Hin | Hin]; [discriminate |]);
             destruct Hin]).
    intros p Hp. apply in_app_or in Hp as [Hp | [<- | []]];
      [apply Hd, Hup; exact Hp |].
    exists f. apply in_or_app. right. left. reflexivity.
  - destruct (findUpload s w) as [p |] eqn:Hp.
    + assert (Hkeep : forall q, In q (dropUpload s (uploads w)) ->
                                exists f, In (FileDrop (Some f) (capturedUrl q))
                                             (evs ++ [UploadSettles s r])).
      { intros q Hq. apply Hd, Hup. unfold dropUpload in Hq.
        apply filter_In in Hq. tauto. }
      destruct r as [info | e]; split; cbn; try exact Hkeep.
      * intros u0 Hin. rewrite app_nil_r in Hin. apply Hr. exact Hin.
      * intros u0 Hin. apply in_app_or in Hin as [Hin | Hin];
          [apply Hr; exact Hin |].
        cbn in Hin. destruct Hin as [Hin | [[= <-] | []]]; [discriminate |].
        split; [apply Hd, Hup, (findUpload_In s w p Hp) |].
        exists s, e. apply in_or_app. right. left. reflexivity.
    + split; [intros q Hq; apply Hd, Hup; exact Hq | exact Hr].
  - destruct (isPendingRequest n w).
    + pose proof (settled_no_revoke true r (app w)) as Hno.
      destruct (onModeSelect_settled true r (app w)) as [a' eff].
      cbn [snd] in Hno. split; cbn.
      * intros p Hp. apply Hd, Hup. exact Hp.
      * intros u0 Hin. apply in_app_or in Hin as [Hin | Hin];
          [apply Hr; exact Hin |].
        exfalso. exact (not_revoked eff u0 Hno Hin).
    + split; [intros q Hq; apply Hd, Hup; exact Hq | exact Hr].
Qed.

(** X18.  A preview URL is revoked only if a drop of the run created it, and
    only in a run in which an upload was rejected: while every upload
    succeeds, no preview URL is released, not even the one a newer drop has
    replaced. *)
Theorem revoked_urls_come_from_failed_uploads (modes : ModeTable)
    (evs : list Event) (u : string) :
  In (RevokeObjectURL u) (effects (run modes evs (initialWorld modes))) ->
  (exists f, In (FileDrop (Some f) u) evs)
  /\ exists s e, In (UploadSettles s (Rejected e)) evs.
Proof.
  assert (H : revokesAccounted evs (run modes evs (initialWorld modes))).
  { induction evs as [| ev evs IH] using rev_ind.
    - split; [intros p [] | intros u0 []].
    - rewrite run_snoc. apply exec_revokes. exact IH. }
  destruct H as [_ H]. apply H.
Qed.

Lemma revoked_urls_come_from_failed_uploads_witness :
  let evs := [FileDrop (Some (mkFile "clip.mp4" "video/mp4")) "blob:clip";
              UploadSettles 0 (Rejected (FileNotActive PROCESSING))] in
  In (RevokeObjectURL "blob:clip")
     (effects (run sampleModes evs (initialWorld sampleModes)))
  /\ (exists f, In (FileDrop (Some f) "blob:clip") evs)
  /\ exists s e, In (UploadSettles s (Rejected e)) evs.
Proof.
  cbv zeta.
  assert (Hin : In (RevokeObjectURL "blob:clip")
                   (effects
                      (run sampleModes
                         [FileDrop (Some (mkFile "clip.mp4" "video/mp4")) "blob:clip";
                          UploadSettles 0 (Rejected (FileNotActive PROCESSING))]
                         (initialWorld sampleModes)))).
  { vm_compute. do 4 right. left. reflexivity. }
  split; [exact Hin |].
  exact (revoked_urls_come_from_failed_uploads sampleModes _ _ Hin).
Defined.

Lemma trimStart_blank (s : string) :
  forallb isWhiteSpace (list_ascii_of_string s) = true ->
  trimStart s = EmptyString.
Proof.
  induction s as [| c s IH]; [reflexivity |].
  cbn. intros H. apply andb_prop in H as [Hc Hs]. rewrite Hc. auto.
Qed.

(** X19.  With the Custom mode selected, a video uploaded and a prompt of
    white space only, the Generate button is disabled and a click does
    nothing, yet the Enter key in the prompt field sends the request with
    that prompt; Enter with Shift held sends nothing. *)
Theorem enter_submits_blank_prompt (modes : ModeTable) (a : App)
    (f : UploadedFileInfo) :
  selectorRendered a = true ->
  isCustomMode a = true ->
  file a = Some f ->
  forallb isWhiteSpace (list_ascii_of_string (customPrompt a)) = true ->
  generateDisabled a = true
  /\ onUiEvent modes ClickGenerate a = (a, [])
  /\ snd (onUiEvent modes (KeyDownPrompt "Enter" false) a)
     = [PreventDefault;
        GenerateContent (promptFn modes (selectedMode a) (customPrompt a))
                        declaredFunctions f]
  /\ onUiEvent modes (KeyDownPrompt "Enter" true) a = (a, []).
Proof.
  intros Hr Hc Hf Hblank.
  assert (Hd : generateDisabled a = true).
  { unfold generateDisabled, hasSubMode, trim.
    rewrite Hc, (trimStart_blank _ Hblank). cbn.
    destruct (isLoading a || negb (bool_decide (is_Some (file a))));
      reflexivity. }
  split; [exact Hd |].
  unfold onUiEvent. rewrite Hr, Hd. cbn [negb].
  unfold hasSubMode. rewrite Hc. cbn.
  unfold onModeSelect, currentPrompt. rewrite Hf, Hc. cbn.
  repeat split.
Qed.

Lemma enter_submits_blank_prompt_witness :
  selectorRendered blankPromptApp = true
  /\ isCustomMode blankPromptApp = true
  /\ forallb isWhiteSpace (list_ascii_of_string (customPrompt blankPromptApp))
     = true
  /\ generateDisabled blankPromptApp = true
  /\ snd (onUiEvent sampleModes (KeyDownPrompt "Enter" false) blankPromptApp)
     = [PreventDefault;
        GenerateContent (promptFn sampleModes "Custom" "   ")
                        declaredFunctions (mkInfo "files/x" "video/mp4")].
Proof.
  split; [reflexivity | split; [reflexivity | split; [reflexivity |]]].
  destruct (enter_submits_blank_prompt sampleModes blankPromptApp
              (mkInfo "files/x" "video/mp4") eq_refl eq_refl eq_refl eq_refl)
    as (H1 & _ & H3 & _).
  split; [exact H1 | exact H3].
Defined.

(** X20.  What stands in the place of the player after a drop: the error
    message after a file that is not a video; the processing notice after a
    video, then the error message if its upload is rejected, and the video
    under its preview URL if its upload is fulfilled. *)
Theorem panel_after_drop (f : File) (objectUrl : string) (a : App)
    (e : Error) (info : UploadedFileInfo) :
  let dropped := fst (fst (uploadVideo (Some f) objectUrl a)) in
  (startsWith (file_type f) "video/" = false ->
   appPanel dropped = ErrorMessage)
  /\ (startsWith (file_type f) "video/" = true ->
      appPanel dropped = ProcessingMessage
      /\ appPanel (fst (uploadVideo_settled objectUrl (Rejected e) dropped))
         = ErrorMessage
      /\ (truthy_str objectUrl = true ->
          appPanel (fst (uploadVideo_settled objectUrl (Fulfilled info) dropped))
          = VideoPanel objectUrl)).
Proof.
  cbn zeta. unfold uploadVideo. split; intros H; rewrite H; cbn.
  - reflexivity.
  - unfold appPanel, panel. cbn. rewrite andb_false_r.
    repeat split. intros Hu. rewrite Hu. reflexivity.
Qed.

(** ** Jumping to an annotation, charting, and the prompt of a chart *)

Lemma le_refl_fin (s : Q) : le (Fin s) (Fin s) = true.
Proof. cbn. apply Qle_bool_iff. apply Qle_refl. Qed.

Lemma sameValue_refl_fin (s : Q) :
  sameValue (Some (Fin s)) (Some (Fin s)) = true.
Proof. cbn. apply Qeq_bool_iff. reflexivity. Qed.

(** X21.  Jumping to an entry whose time is a number within the video, and
    other than the time requested last, moves the playback position to that
    time without touching the duration, and the time update that follows
    shows the text of that entry, provided no entry listed after it has a
    time at or before it.  Jumping once more to the same entry sets no
    position: the requested time has not changed, so the effect does not
    run. *)
Theorem jump_shows_caption (timeToSecs : string -> num)
    (before after : list Annotation) (t : Annotation) (s d : Q) (a : App)
    (v : Video) (p : Player) :
  videoDuration v = Fin d -> (0 <= s)%Q -> (s <= d)%Q ->
  timeToSecs (time t) = Fin s ->
  timecodeList a = Some (before ++ t :: after) ->
  forallb (fun x => negb (qualifies timeToSecs (Fin s) x)) after = true ->
  sameValue (requestedTimecode a) (Some (Fin s)) = false ->
  let a' := jumpToTimecode (timeToSecs (time t)) a in
  (exists v',
      onRequestedTimecode (Some (requestedTimecode a)) (requestedTimecode a')
                          (Some v)
      = SeekDone (Some v')
      /\ currentTime v' = Fin s
      /\ videoDuration v' = videoDuration v
      /\ currentCaption (updateTime timeToSecs (timecodeList a') (Some v') p)
         = text t)
  /\ (forall moved,
         onRequestedTimecode
           (Some (requestedTimecode a'))
           (requestedTimecode (jumpToTimecode (timeToSecs (time t)) a'))
           (Some moved)
         = SeekDone (Some moved)).
Proof.
  intros _ _ _ Hs Hl Hlate Hnew. cbn zeta. unfold jumpToTimecode.
  cbn [requestedTimecode timecodeList setRequestedTimecode].
  rewrite Hs, Hl. split.
  - unfold onRequestedTimecode. rewrite Hnew. cbn [negb].
    eexists. split; [reflexivity |]. split; [reflexivity |].
    split; [reflexivity |].
    rewrite caption_of. cbn [currentTime].
    rewrite rev_app_distr. cbn [List.rev]. rewrite <- app_assoc.
    rewrite find_skip by (rewrite forallb_rev; exact Hlate).
    cbn. unfold qualifies. rewrite Hs, le_refl_fin. reflexivity.
  - intros moved. unfold onRequestedTimecode.
    rewrite sameValue_refl_fin. reflexivity.
Qed.

Lemma jump_shows_caption_witness :
  let l := [mkAnnotation "0:05" (Some "five") None None;
            mkAnnotation "0:10" (Some "ten") None None;
            mkAnnotation "0:20" (Some "twenty") None None] in
  let a := setTimecodeList (Some l) sampleApp in
  parseTimecode "0:10" = Fin 10 /\ (0 <= 10)%Q /\ (10 <= 30)%Q
  /\ sameValue (requestedTimecode a) (Some (Fin 10)) = false
  /\ exists v',
      onRequestedTimecode
        (Some (requestedTimecode a))
        (requestedTimecode (jumpToTimecode (parseTimecode "0:10") a))
        (Some (mkVideo (Fin 0) (Fin 30))) = SeekDone (Some v')
      /\ currentTime v' = Fin 10
      /\ videoDuration v' = Fin 30
      /\ currentCaption
           (updateTime parseTimecode
              (timecodeList (jumpToTimecode (parseTimecode "0:10") a))
              (Some v') (mkPlayer (Fin 30) (Fin 0) false false None))
         = Some "ten".
Proof.
  cbv zeta. split; [reflexivity |].
  split; [vm_compute; discriminate |]. split; [vm_compute; discriminate |].
  split; [reflexivity |].
  exact (proj1
           (jump_shows_caption parseTimecode
              [mkAnnotation "0:05" (Some "five") None None]
              [mkAnnotation "0:20" (Some "twenty") None None]
              (mkAnnotation "0:10" (Some "ten") None None) 10 30
              (setTimecodeList
                 (Some [mkAnnotation "0:05" (Some "five") None None;
                        mkAnnotation "0:10" (Some "ten") None None;
                        mkAnnotation "0:20" (Some "twenty") None None])
                 sampleApp)
              (mkVideo (Fin 0) (Fin 30))
              (mkPlayer (Fin 30) (Fin 0) false false None)
              eq_refl ltac:(vm_compute; discriminate)
              ltac:(vm_compute; discriminate) eq_refl eq_refl eq_refl
              eq_refl)).
Defined.

Lemma filter_all {A : Type} (P : A -> bool) (l : list A) :
  forallb P l = true -> List.filter P l = l.
Proof.
  induction l as [| x l IH]; [reflexivity |].
  cbn. intros H. apply andb_prop in H as [Hx Hl]. rewrite Hx, IH; auto.
Qed.

(** X22.  When a response names set_timecodes_with_numeric_values while the
    Chart mode is active, the output section leaves the loading notice and
    charts the entries of the payload that carry a number, in their order,
    under the label fixed when the request was made; entries without a
    number are left out of the chart, and a payload in which every entry
    has one is charted whole. *)
Theorem chart_shows_numeric_payload (isList : string -> bool)
    (resp : Response) (call : FunctionCall) (a : App)
    (scrollRefCurrent : bool) :
  firstCall resp = Some call ->
  name call = "set_timecodes_with_numeric_values" ->
  activeMode a = Some "Chart" ->
  output isList (fst (onModeSelect_settled scrollRefCurrent (Fulfilled resp) a))
  = ChartView (List.filter hasNumber (timecodes (args call))) (chartLabel a)
  /\ (forallb hasNumber (timecodes (args call)) = true ->
      output isList
        (fst (onModeSelect_settled scrollRefCurrent (Fulfilled resp) a))
      = ChartView (timecodes (args call)) (chartLabel a)).
Proof.
  intros Hc Hn Hm.
  assert (Hh : fnMap !! name call = Some setTimecodesNumeric)
    by (rewrite Hn; reflexivity).
  rewrite (settled_own resp call a setTimecodesNumeric _ Hc Hh).
  assert (E : output isList
                (setIsLoading false (setTimecodesNumeric (args call) a))
              = ChartView (List.filter hasNumber (timecodes (args call)))
                          (chartLabel a)).
  { unfold output. cbn. rewrite Hm. reflexivity. }
  split; [exact E |]. intros Hall. rewrite E, (filter_all _ _ Hall).
  reflexivity.
Qed.

Lemma chart_shows_numeric_payload_witness :
  let p := mkPayload [mkAnnotation "0:01" None None (Some (Fin 3));
                      mkAnnotation "0:02" (Some "no number") None None;
                      mkAnnotation "0:03" None None (Some (Fin 0))] in
  let a := setActiveMode (Some "Chart") sampleApp in
  output (fun _ => false)
    (fst (onModeSelect_settled true
            (Fulfilled (mkResponse
               (Some [mkCall "set_timecodes_with_numeric_values" p]) None))
            a))
  = ChartView [mkAnnotation "0:01" None None (Some (Fin 3));
               mkAnnotation "0:03" None None (Some (Fin 0))]
              EmptyString.
Proof.
  cbv zeta.
  exact (proj1 (chart_shows_numeric_payload (fun _ => false)
                  (mkResponse
                     (Some [mkCall "set_timecodes_with_numeric_values"
                              (mkPayload
                                 [mkAnnotation "0:01" None None (Some (Fin 3));
                                  mkAnnotation "0:02" (Some "no number") None None;
                                  mkAnnotation "0:03" None None (Some (Fin 0))])])
                     None)
                  (mkCall "set_timecodes_with_numeric_values"
                     (mkPayload
                        [mkAnnotation "0:01" None None (Some (Fin 3));
                         mkAnnotation "0:02" (Some "no number") None None;
                         mkAnnotation "0:03" None None (Some (Fin 0))]))
                  (setActiveMode (Some "Chart") sampleApp) true
                  eq_refl eq_refl eq_refl)).
Defined.

(** X23.  In the Chart mode the label kept for the chart is the very phrase
    the prompt is built from: the phrase of the selected sub-mode, or the
    typed chart prompt when the sub-mode is Custom.  The request is made
    with the current media handle, and the mode asked for becomes the
    active mode. *)
Theorem chart_label_matches_prompt (modes : ModeTable) (mode : string)
    (a : App) (f : UploadedFileInfo) :
  isChartMode a = true ->
  file a = Some f ->
  let phrase := if String.eqb (chartMode a) "Custom" then chartPrompt a
                else subModes modes mode (chartMode a) in
  let '(a', eff) := onModeSelect modes mode a in
  chartLabel a' = phrase
  /\ eff = [GenerateContent (promptFn modes mode phrase) declaredFunctions f]
  /\ activeMode a' = Some mode
  /\ isLoading a' = true
  /\ timecodeList a' = timecodeList a.
Proof.
  intros Hc Hf. cbn zeta.
  assert (Hnc : isCustomMode a = false).
  { unfold isChartMode, isCustomMode in *.
    apply String.eqb_eq in Hc. rewrite Hc. reflexivity. }
  unfold onModeSelect, currentPrompt, isCustomChartMode.
  rewrite Hf, Hc, Hnc. cbn.
  destruct (String.eqb (chartMode a) "Custom"); repeat split.
Qed.

Lemma chart_label_matches_prompt_witness :
  let a := setChartMode "Custom"
             (setChartPrompt "number of people"
                (setSelectedMode "Chart" sampleApp)) in
  isChartMode a = true
  /\ chartLabel (fst (onModeSelect sampleModes "Chart" a)) = "number of people"
  /\ snd (onModeSelect sampleModes "Chart" a)
     = [GenerateContent "Prompt for Chart: number of people"
                        declaredFunctions (mkInfo "files/x" "video/mp4")].
Proof.
  cbv zeta. split; [reflexivity |].
  pose proof (chart_label_matches_prompt sampleModes "Chart"
                (setChartMode "Custom"
                   (setChartPrompt "number of people"
                      (setSelectedMode "Chart" sampleApp)))
                (mkInfo "files/x" "video/mp4") eq_refl eq_refl) as H.
  cbv zeta in H.
  destruct (onModeSelect sampleModes "Chart" _) as [a' eff].
  destruct H as (Hl & He & _). split; [exact Hl | exact He].
Defined.

(** ** A new video, and the metadata of a video *)



(** X25.  An entry whose time lies beyond the end of the video has its
    marker rendered at the left edge as long as the player holds no
    positive duration, and loses its marker once [loadedmetadata] has
    delivered the duration. *)
Theorem marker_hidden_once_duration_known (timeToSecs : string -> num)
    (t : Annotation) (s d : Q) (video : Video) (p : Player) :
  timeToSecs (time t) = Fin s ->
  videoDuration video = Fin d ->
  (0 < d)%Q -> (d < s)%Q ->
  gt (duration p) (Fin 0) = false ->
  (exists m, marker timeToSecs (duration p) t = Some m
             /\ markerLeft m = Fin 0)
  /\ marker timeToSecs (duration (updateDuration (Some video) p)) t = None.
Proof.
  intros Hs Hv Hd Hlate Hp. split.
  - unfold marker, markerPct. rewrite Hp. cbn. eauto.
  - unfold updateDuration. cbn [duration setDuration]. rewrite Hv.
    unfold marker. rewrite Hs, (markerPct_fin d s Hd), lt_fin, gt_fin.
    assert (E : Qle_bool (s / d * 100) 100 = false).
    { apply Qle_bool_false. apply Qnot_le_lt. intros H.
      apply (pct_at_most_100 s d Hd) in H.
      apply Qlt_not_le in Hlate. contradiction. }
    rewrite E. cbn. rewrite orb_true_r. reflexivity.
Qed.

Lemma marker_hidden_once_duration_known_witness :
  (0 < 30)%Q /\ (30 < 45)%Q
  /\ gt (duration (mkPlayer (Fin 0) (Fin 0) false false None)) (Fin 0) = false
  /\ (exists m,
        marker (fun _ => Fin 45) (Fin 0)
               (mkAnnotation "0:45" (Some "late") None None) = Some m
        /\ markerLeft m = Fin 0)
  /\ marker (fun _ => Fin 45)
            (duration (updateDuration (Some (mkVideo (Fin 0) (Fin 30)))
                         (mkPlayer (Fin 0) (Fin 0) false false None)))
            (mkAnnotation "0:45" (Some "late") None None) = None.
Proof.
  split; [reflexivity | split; [reflexivity | split; [reflexivity |]]].
  exact (marker_hidden_once_duration_known (fun _ => Fin 45)
           (mkAnnotation "0:45" (Some "late") None None) 45 30
           (mkVideo (Fin 0) (Fin 30))
           (mkPlayer (Fin 0) (Fin 0) false false None)
           eq_refl eq_refl eq_refl eq_refl eq_refl).
Defined.
